(** * telegnotion_bot.py: a Telegram to Notion relay

    A shallow embedding of [telegnotion_bot.py].  The two record builders
    ([get_text_properties], [get_file_properties]), the forwarder
    ([save_to_notion]), the three message handlers and the start-up check
    are transcribed from the Python source; the Telegram and Notion clients,
    the clock and the logger are the outside world, reached through the
    calls of a small program monad and answered by a [world]. *)

From Stdlib Require Import NArith ZArith Ascii String Decimal.
From stdpp Require Import gmap strings list fin_maps.

(** ** Python strings

    A Python [str] is a sequence of Unicode code points: slicing, [len] and
    indexing all count code points, so that is what a [str] is here. *)

Abbreviation char := N.
Abbreviation str := (list N).

(** Source literals are written as Rocq string literals, which hold the
    UTF-8 bytes of the text; [lit] decodes them to code points. *)
Fixpoint utf8_decode (bs : list N) : str :=
  match bs with
  | [] => []
  | b0 :: r0 =>
      if (b0 <? 128)%N then b0 :: utf8_decode r0
      else if (b0 <? 224)%N then
        match r0 with
        | b1 :: r1 => ((b0 mod 32) * 64 + b1 mod 64)%N :: utf8_decode r1
        | _ => []
        end
      else if (b0 <? 240)%N then
        match r0 with
        | b1 :: b2 :: r2 =>
            (((b0 mod 16) * 64 + b1 mod 64) * 64 + b2 mod 64)%N
              :: utf8_decode r2
        | _ => []
        end
      else
        match r0 with
        | b1 :: b2 :: b3 :: r3 =>
            ((((b0 mod 8) * 64 + b1 mod 64) * 64 + b2 mod 64) * 64
             + b3 mod 64)%N :: utf8_decode r3
        | _ => []
        end
  end.

Definition lit (s : string) : str :=
  utf8_decode (List.map N_of_ascii (list_ascii_of_string s)).

(** [str(n)] for an [int]. *)
Fixpoint digits_of_uint (u : Decimal.uint) : str :=
  match u with
  | Nil => []
  | D0 u' => 48%N :: digits_of_uint u'
  | D1 u' => 49%N :: digits_of_uint u'
  | D2 u' => 50%N :: digits_of_uint u'
  | D3 u' => 51%N :: digits_of_uint u'
  | D4 u' => 52%N :: digits_of_uint u'
  | D5 u' => 53%N :: digits_of_uint u'
  | D6 u' => 54%N :: digits_of_uint u'
  | D7 u' => 55%N :: digits_of_uint u'
  | D8 u' => 56%N :: digits_of_uint u'
  | D9 u' => 57%N :: digits_of_uint u'
  end.

Definition str_of_N (n : N) : str := digits_of_uint (N.to_uint n).

Definition str_of_int (z : Z) : str :=
  match Z.to_int z with
  | Decimal.Pos u => digits_of_uint u
  | Decimal.Neg u => 45%N :: digits_of_uint u
  end.

(** [s.zfill(w)] on a string of digits. *)
Definition zfill (w : nat) (s : str) : str :=
  replicate (w - length s) 48%N ++ s.

(** *** [str.capitalize]

    On a string of ASCII characters [capitalize] upper-cases the first
    character and lower-cases the others.  For any other string the result
    comes from the case mappings of the Unicode character database, which
    belongs to the interpreter and not to this repository: it is the
    parameter [unicode_capitalize] of [capitalize]. *)
Definition is_ascii (c : char) : bool := (c <? 128)%N.

Definition ascii_upper (c : char) : char :=
  if ((97 <=? c) && (c <=? 122))%N then (c - 32)%N else c.

Definition ascii_lower (c : char) : char :=
  if ((65 <=? c) && (c <=? 90))%N then (c + 32)%N else c.

Definition capitalize (unicode_capitalize : str → str) (s : str) : str :=
  if forallb is_ascii s then
    match s with
    | [] => []
    | c :: r => ascii_upper c :: List.map ascii_lower r
    end
  else unicode_capitalize s.

(** ** Python values

    The payloads are nested dict and list literals with [str] leaves; a
    dict is a finite map from [str] keys. *)

#[local] Unset Elimination Schemes.
Inductive value : Type :=
| VNone
| VStr (s : str)
| VList (l : list value)
| VDict (d : gmap str value).
#[local] Set Elimination Schemes.

(** A dict display [{k1: v1, k2: v2, ...}]: the items are inserted from left
    to right. *)
Definition py_dict (kvs : list (str * value)) : value :=
  VDict (fold_left (λ m kv, <[kv.1 := kv.2]> m) kvs ∅).

(** [v[k]] on a dict and [v[i]] on a list; [None] where Python raises. *)
Definition getitem (k : str) (v : value) : option value :=
  match v with
  | VDict d => d !! k
  | _ => None
  end.

Definition getindex (i : nat) (v : value) : option value :=
  match v with
  | VList l => l !! i
  | _ => None
  end.

(** The keys of a dict. *)
Definition keys (v : value) : gset str :=
  match v with
  | VDict d => dom d
  | _ => ∅
  end.

(** Truth value testing: [None] and the empty string are false. *)
Definition truthy (v : value) : bool :=
  match v with
  | VNone => false
  | VStr s => negb (bool_decide (s = []))
  | VList l => negb (bool_decide (l = []))
  | VDict d => negb (bool_decide (dom d = ∅))
  end.

(** An optional attribute or argument ([Optional[str]]) as a value. *)
Definition of_option (o : option str) : value :=
  match o with
  | Some s => VStr s
  | None => VNone
  end.

(** [all(iterable)]. *)
Definition py_all (vs : list value) : bool := forallb truthy vs.

(** ** The text record builder *)

Definition get_text_properties (text : str) : value :=
  let title := take 30 text in
  py_dict
    [ (lit "Name",
        py_dict [ (lit "title",
          VList [ py_dict [ (lit "text",
            py_dict [ (lit "content", VStr title) ]) ] ]) ]);
      (lit "Type",
        py_dict [ (lit "select", py_dict [ (lit "name", VStr (lit "Texte")) ]) ]);
      (lit "Contenu",
        py_dict [ (lit "rich_text",
          VList [ py_dict [ (lit "type", VStr (lit "text"));
                            (lit "text",
                              py_dict [ (lit "content", VStr text) ]) ] ]) ]) ].

(** A chain of subscripts [v[a][b]...], each a dict key or a list index. *)
Inductive subscript : Type :=
| Key (k : str)
| Idx (i : nat).

Fixpoint subscripts (path : list subscript) (v : value) : option value :=
  match path with
  | [] => Some v
  | Key k :: rest => getitem k v ≫= subscripts rest
  | Idx i :: rest => getindex i v ≫= subscripts rest
  end.

(** The places of a payload the specification speaks about:
    [p["Name"]["title"][0]["text"]["content"]], [p["Type"]["select"]["name"]],
    [p["Contenu"]["rich_text"][0]["text"]["content"]] and
    [p["Fichier URL"]["url"]]. *)
Definition name_title (p : value) : option value :=
  subscripts [Key (lit "Name"); Key (lit "title"); Idx 0; Key (lit "text");
              Key (lit "content")] p.

Definition type_select (p : value) : option value :=
  subscripts [Key (lit "Type"); Key (lit "select"); Key (lit "name")] p.

Definition contenu_rich_text (p : value) : option value :=
  subscripts [Key (lit "Contenu"); Key (lit "rich_text"); Idx 0;
              Key (lit "text"); Key (lit "content")] p.

Definition fichier_url (p : value) : option value :=
  subscripts [Key (lit "Fichier URL"); Key (lit "url")] p.

(** ** The clock and [strftime] *)

(** A [datetime.datetime]; the microseconds are never formatted and are left
    out. *)
Record datetime : Type := {
  year : N;
  month : N;
  day : N;
  hour : N;
  minute : N;
  second : N
}.

Definition is_leap (y : N) : bool :=
  (((y mod 4 =? 0) && negb (y mod 100 =? 0)) || (y mod 400 =? 0))%N.

Definition days_in_month (y m : N) : N :=
  if (m =? 2)%N then (if is_leap y then 29 else 28)%N
  else if ((m =? 4) || (m =? 6) || (m =? 9) || (m =? 11))%N then 30%N
  else 31%N.

(** The ranges [datetime] enforces on its fields ([MINYEAR = 1],
    [MAXYEAR = 9999]). *)
Definition valid_datetime (d : datetime) : bool :=
  ((1 <=? year d) && (year d <=? 9999)
   && (1 <=? month d) && (month d <=? 12)
   && (1 <=? day d) && (day d <=? days_in_month (year d) (month d))
   && (hour d <? 24) && (minute d <? 60) && (second d <? 60))%N.

Definition ord (a : ascii) : char := N_of_ascii a.

(** One [strftime] directive.  The fields other than the year are padded
    to two digits.  The year is the platform's: the library documents it
    padded to four digits (0001 to 9999), and on a platform whose C library
    does not pad it (glibc) a year below 1000 is written as it is;
    [pad_year] tells which.  A directive the source does not use is copied
    as it is. *)
Definition year_field (pad_year : bool) (d : datetime) : str :=
  if pad_year then zfill 4 (str_of_N (year d)) else str_of_N (year d).

Definition directive (pad_year : bool) (d : datetime) (c : char) : str :=
  if (c =? ord "Y")%N then year_field pad_year d
  else if (c =? ord "m")%N then zfill 2 (str_of_N (month d))
  else if (c =? ord "d")%N then zfill 2 (str_of_N (day d))
  else if (c =? ord "H")%N then zfill 2 (str_of_N (hour d))
  else if (c =? ord "M")%N then zfill 2 (str_of_N (minute d))
  else if (c =? ord "S")%N then zfill 2 (str_of_N (second d))
  else if (c =? ord "%")%N then [c]
  else [ord "%"; c].

Fixpoint strftime (pad_year : bool) (d : datetime) (fmt : str) : str :=
  match fmt with
  | [] => []
  | c :: rest =>
      if (c =? ord "%")%N then
        match rest with
        | c' :: rest' => directive pad_year d c' ++ strftime pad_year d rest'
        | [] => [c]
        end
      else c :: strftime pad_year d rest
  end.

(** The shape the specification names, [YYYY-MM-DD_HH-MM-SS]: a letter of
    the pattern stands for one decimal digit, any other character for
    itself. *)
Definition is_digit (c : char) : bool := ((48 <=? c) && (c <=? 57))%N.

Definition is_letter (c : char) : bool :=
  (((65 <=? c) && (c <=? 90)) || ((97 <=? c) && (c <=? 122)))%N.

Fixpoint matches_pattern (pat s : str) : bool :=
  match pat, s with
  | [], [] => true
  | p :: pat', c :: s' =>
      (if is_letter p then is_digit c else (p =? c)%N)
      && matches_pattern pat' s'
  | _, _ => false
  end.

(** Some substring of [s] matches the pattern. *)
Fixpoint contains_match (pat s : str) : bool :=
  matches_pattern pat (take (length pat) s)
  || match s with
     | [] => false
     | _ :: s' => contains_match pat s'
     end.

Definition timestamp_pattern : str := lit "YYYY-MM-DD_HH-MM-SS".

(** ** Telegram objects *)

Record User : Type := {
  first_name : str;
  user_id : Z                      (* [user.id] *)
}.

Record PhotoSize : Type := {
  photo_file_id : str;             (* [PhotoSize.file_id] *)
  width : nat;
  height : nat
}.

Record Document : Type := {
  doc_file_id : str;               (* [Document.file_id] *)
  file_name : option str
}.

(** A message has a text, a list of photo sizes (empty when it has no
    photo) or a document. *)
Record Message : Type := {
  text : option str;
  photo : list PhotoSize;
  document : option Document
}.

Record Update : Type := {
  message : Message;
  effective_user : User
}.

(** What the error handler is given as [update]: an object that is not an
    [Update] ([None], when the error did not come from an update), an
    [Update] without an effective message, or an update with its message. *)
Inductive error_update : Type :=
| NotAnUpdate
| WithoutMessage
| OfUpdate (u : Update).

(** [telegram.File]: what [get_file] resolves a file identifier to. *)
Record TelegramFile : Type := {
  file_id : str;
  file_path : option str
}.

(** ** Exceptions

    [APIResponseError] is a subclass of [Exception], with the error code,
    the body of the response and the message of the API; [OtherException]
    is an instance of any other subclass of [Exception], with its class name
    and message; [NonException] is a [BaseException] outside [Exception]
    ([KeyboardInterrupt], [SystemExit], [asyncio.CancelledError]). *)
Inductive exn : Type :=
| APIResponseError (code body msg : str)
| OtherException (cls msg : str)
| NonException (cls msg : str).

(** [isinstance(e, Exception)]. *)
Definition is_Exception (e : exn) : bool :=
  match e with
  | APIResponseError _ _ _ | OtherException _ _ => true
  | NonException _ _ => false
  end.

(** [str(e)], as an f-string formats it. *)
Definition str_of_exn (e : exn) : str :=
  match e with
  | APIResponseError _ _ msg
  | OtherException _ msg | NonException _ msg => msg
  end.

(** [str(v)] for the values an f-string of the source formats. *)
Definition str_of_option (o : option str) : str :=
  match o with
  | Some s => s
  | None => lit "None"
  end.

(** ** Programs

    The code's effects are calls to the outside world.  A call returns or
    raises; the logger only records. *)
Inductive call : Type → Type :=
| reply_text (msg : str) : call unit            (* [update.message.reply_text] *)
| get_file (fid : str) : call TelegramFile      (* [context.bot.get_file] *)
| pages_create (parent properties : value) : call unit
                                                (* [notion.pages.create] *)
| datetime_now : call datetime.                 (* [datetime.datetime.now] *)

Inductive level : Type := INFO | ERROR.

Inductive prog (A : Type) : Type :=
| Ret (a : A)
| Raise (e : exn)
| Log (lvl : level) (msg : str) (k : prog A)
| Call {X : Type} (c : call X) (k : X + exn → prog A).

Arguments Ret {A} a.
Arguments Raise {A} e.
Arguments Log {A} lvl msg k.
Arguments Call {A X} c k.

Fixpoint bind {A B : Type} (p : prog A) (f : A → prog B) : prog B :=
  match p with
  | Ret a => f a
  | Raise e => Raise e
  | Log lvl msg k => Log lvl msg (bind k f)
  | Call c k => Call c (λ r, bind (k r) f)
  end.

#[global] Instance prog_ret : MRet prog := λ A a, Ret a.
#[global] Instance prog_bind : MBind prog := λ A B f p, bind p f.

(** [await c]: the result of the call, or its exception raised here. *)
Definition await {X : Type} (c : call X) : prog X :=
  Call c (λ r, match r with inl x => Ret x | inr e => Raise e end).

Definition log (lvl : level) (msg : str) : prog unit := Log lvl msg (Ret tt).

(** [try: body except ...]: the clauses are tried in order on an exception
    of the body and the first that matches handles it; an exception of a
    handler is not handled again. *)
Fixpoint first_clause {A : Type} (clauses : list (exn → option (prog A)))
    (e : exn) : prog A :=
  match clauses with
  | [] => Raise e
  | cl :: rest =>
      match cl e with
      | Some h => h
      | None => first_clause rest e
      end
  end.

Fixpoint try_except {A : Type} (body : prog A)
    (clauses : list (exn → option (prog A))) : prog A :=
  match body with
  | Ret a => Ret a
  | Raise e => first_clause clauses e
  | Log lvl msg k => Log lvl msg (try_except k clauses)
  | Call c k => Call c (λ r, try_except (k r) clauses)
  end.

(** ** The outside world

    A world answers every call; its answer may depend on how many calls
    were made before ([n]), so that any sequence of answers can be
    scripted.  The clock always returns. *)
Record world : Type := {
  clock : nat → datetime;
  telegram_reply_text : nat → str → unit + exn;
  telegram_get_file : nat → str → TelegramFile + exn;
  notion_pages_create : nat → value → value → unit + exn
}.

Definition respond (w : world) (n : nat) {X : Type} (c : call X) : X + exn :=
  match c in call X return X + exn with
  | reply_text msg => telegram_reply_text w n msg
  | get_file fid => telegram_get_file w n fid
  | pages_create parent properties => notion_pages_create w n parent properties
  | datetime_now => inl (clock w n)
  end.

(** What an observer sees of a run. *)
Inductive event : Type :=
| EvLog (lvl : level) (msg : str)
| EvReply (msg : str) (r : unit + exn)
| EvGetFile (fid : str) (r : TelegramFile + exn)
| EvCreate (parent properties : value) (r : unit + exn)
| EvNow (r : datetime + exn).

Definition observe {X : Type} (c : call X) : X + exn → event :=
  match c in call X return X + exn → event with
  | reply_text msg => EvReply msg
  | get_file fid => EvGetFile fid
  | pages_create parent properties => EvCreate parent properties
  | datetime_now => EvNow
  end.

(** Running a program in a world, [n] calls having been made before: the
    events in order, and the value returned or the exception that escapes. *)
Fixpoint run {A : Type} (w : world) (n : nat) (p : prog A)
    : list event * (A + exn) :=
  match p with
  | Ret a => ([], inl a)
  | Raise e => ([], inr e)
  | Log lvl msg k =>
      let '(t, o) := run w n k in (EvLog lvl msg :: t, o)
  | Call c k =>
      let r := respond w n c in
      let '(t, o) := run w (S n) (k r) in (observe c r :: t, o)
  end.

(** The replies that reached the user, and the record-creation calls that
    were made, in order. *)
Definition sent_replies (t : list event) : list str :=
  omap (λ ev, match ev with EvReply msg (inl _) => Some msg | _ => None end) t.

Definition reply_calls (t : list event) : list str :=
  omap (λ ev, match ev with EvReply msg _ => Some msg | _ => None end) t.

Definition create_calls (t : list event) : list (value * value) :=
  omap (λ ev, match ev with
              | EvCreate parent properties _ => Some (parent, properties)
              | _ => None
              end) t.

Definition get_file_calls (t : list event) : list str :=
  omap (λ ev, match ev with EvGetFile fid _ => Some fid | _ => None end) t.

Definition logged (t : list event) : list (level * str) :=
  omap (λ ev, match ev with EvLog lvl msg => Some (lvl, msg) | _ => None end) t.

(** ** Start-up

    The module reads its three settings from the environment, checks them,
    creates the Notion client and, run as a script, enters [main], which
    builds the application, registers the handlers and starts polling. *)

(** [os.getenv(k)]: the value of the variable, or [None]. *)
Definition getenv (environ : gmap str str) (k : str) : value :=
  of_option (environ !! k).

Definition config_error : exn :=
  OtherException (lit "ValueError")
    (lit "Erreur: Assurez-vous que TELEGRAM_BOT_TOKEN, NOTION_API_KEY, et NOTION_DATABASE_ID sont définis dans le fichier .env").

(** The check of lines 12 to 18. *)
Definition config_check (environ : gmap str str) : unit + exn :=
  let TELEGRAM_TOKEN := getenv environ (lit "TELEGRAM_BOT_TOKEN") in
  let NOTION_TOKEN := getenv environ (lit "NOTION_API_KEY") in
  let NOTION_DB_ID := getenv environ (lit "NOTION_DATABASE_ID") in
  if negb (py_all [TELEGRAM_TOKEN; NOTION_TOKEN; NOTION_DB_ID])
  then inr config_error
  else inl tt.

(** How far the script gets: the module raises, it calls [exit()], or
    [main] runs with the three settings. *)
Inductive startup : Type :=
| Fatal (e : exn)
| Exited
| Main (TELEGRAM_TOKEN NOTION_TOKEN NOTION_DB_ID : value).

(** [Client] is the constructor of the Notion client, which returns or
    raises. *)
Definition script (environ : gmap str str) (Client : value → unit + exn)
    : startup :=
  match config_check environ with
  | inr e => Fatal e
  | inl _ =>
      let NOTION_TOKEN := getenv environ (lit "NOTION_API_KEY") in
      match Client NOTION_TOKEN with
      | inl _ =>
          Main (getenv environ (lit "TELEGRAM_BOT_TOKEN")) NOTION_TOKEN
               (getenv environ (lit "NOTION_DATABASE_ID"))
      | inr e => if is_Exception e then Exited else Fatal e
      end
  end.

(** The event loop and the handlers run only from [main]. *)
Definition event_loop_started (st : startup) : bool :=
  match st with
  | Main _ _ _ => true
  | _ => false
  end.

(** ** The forwarder, the file record builder and the handlers *)

Section Bot.

(** The interpreter's case mapping outside ASCII (see [capitalize]), the
    platform's way with the year (see [directive]) and the module's global
    [NOTION_DB_ID]. *)
Variable unicode_capitalize : str → str.
Variable pad_year : bool.
Variable NOTION_DB_ID : value.

Definition save_to_notion (page_properties : value) : prog bool :=
  try_except
    (await (pages_create (py_dict [ (lit "database_id", NOTION_DB_ID) ])
                         page_properties);;
     log INFO (lit "Page créée avec succès dans Notion.");;
     mret true)
    [ (λ e, match e with
            | APIResponseError code body _ =>
                Some (log ERROR (lit "Erreur API Notion: " ++ code
                                   ++ lit " - " ++ body);;
                      mret false)
            | _ => None
            end);
      (λ e, if is_Exception e then
              Some (log ERROR
                      (lit "Erreur inattendue lors de la sauvegarde dans Notion: "
                         ++ str_of_exn e);;
                    mret false)
            else None) ].

Definition get_file_properties (file : TelegramFile) (file_type : str)
    (filename : option str) : prog value :=
  let file_url := file_path file in
  name ← (if truthy (of_option filename) then mret (str_of_option filename)
          else now ← await datetime_now;
               mret (strftime pad_year now (lit "%Y-%m-%d_%H-%M-%S")));
  let page_title :=
    capitalize unicode_capitalize file_type ++ lit ": " ++ name in
  mret (py_dict
    [ (lit "Name",
        py_dict [ (lit "title",
          VList [ py_dict [ (lit "text",
            py_dict [ (lit "content", VStr (take 100 page_title)) ]) ] ]) ]);
      (lit "Type",
        py_dict [ (lit "select",
          py_dict [ (lit "name",
            VStr (capitalize unicode_capitalize file_type)) ]) ]);
      (lit "Fichier URL",
        py_dict [ (lit "url", of_option file_url) ]) ]).

Definition failure_reply : str :=
  lit "Oups ! Une erreur s'est produite lors de la sauvegarde dans Notion.".

(** [message_text[:50]] raises [TypeError] when the message has no
    text. *)
Definition handle_text (update : Update) : prog unit :=
  let user := effective_user update in
  match text (message update) with
  | None =>
      Raise (OtherException (lit "TypeError")
               (lit "'NoneType' object is not subscriptable"))
  | Some message_text =>
      log INFO (lit "Message texte reçu de " ++ first_name user ++ lit " ("
                  ++ str_of_int (user_id user) ++ lit "): "
                  ++ take 50 message_text ++ lit "...");;
      await (reply_text (lit "Traitement du texte..."));;
      let properties := get_text_properties message_text in
      success ← save_to_notion properties;
      if success : bool
      then await (reply_text (lit "Texte sauvegardé dans Notion !"))
      else await (reply_text failure_reply)
  end.

(** [photo[-1]] raises [IndexError] on an empty sequence. *)
Definition handle_photo (update : Update) : prog unit :=
  let user := effective_user update in
  log INFO (lit "Photo reçue de " ++ first_name user ++ lit " ("
              ++ str_of_int (user_id user) ++ lit ")");;
  await (reply_text (lit "Traitement de l'image..."));;
  match last (photo (message update)) with
  | None =>
      Raise (OtherException (lit "IndexError")
               (lit "tuple index out of range"))
  | Some largest =>
      photo_file ← await (get_file (photo_file_id largest));
      properties ← get_file_properties photo_file (lit "Image") None;
      success ← save_to_notion properties;
      if success : bool
      then await (reply_text (lit "Image sauvegardée dans Notion !"))
      else await (reply_text failure_reply)
  end.

(** [doc.file_name] raises [AttributeError] when the message has no
    document. *)
Definition handle_document (update : Update) : prog unit :=
  let user := effective_user update in
  match document (message update) with
  | None =>
      Raise (OtherException (lit "AttributeError")
               (lit "'NoneType' object has no attribute 'file_name'"))
  | Some doc =>
      log INFO (lit "Document reçu de " ++ first_name user ++ lit " ("
                  ++ str_of_int (user_id user) ++ lit "): "
                  ++ str_of_option (file_name doc));;
      await (reply_text (lit "Traitement du document..."));;
      doc_file ← await (get_file (doc_file_id doc));
      properties ←
        get_file_properties doc_file (lit "Document") (file_name doc);
      success ← save_to_notion properties;
      if success : bool
      then await (reply_text (lit "Document '" ++ str_of_option (file_name doc)
                                ++ lit "' sauvegardé dans Notion !"))
      else await (reply_text failure_reply)
  end.

(** The handler of the [/start] command. *)
Definition start (update : Update) : prog unit :=
  await (reply_text (lit "Bonjour ! Envoyez-moi du texte, une image ou un document, et je le sauvegarderai dans votre base de données Notion.")).

(** The error handler [main] registers.  It logs the error; it replies
    only when its first argument is an [Update] with an effective message,
    and an [Exception] of that reply is logged and dropped. *)
Definition error_handler (update : error_update) (error : exn) : prog unit :=
  log ERROR (lit "Exception lors du traitement d'une mise à jour: "
               ++ str_of_exn error);;
  match update with
  | OfUpdate _ =>
      try_except
        (await (reply_text (lit "Désolé, une erreur interne est survenue.")))
        [ (λ e, if is_Exception e then
                  Some (log ERROR
                          (lit "Impossible d'envoyer un message d'erreur à l'utilisateur: "
                             ++ str_of_exn e))
                else None) ]
  | NotAnUpdate | WithoutMessage => mret tt
  end.

End Bot.

(** ** What the specification's statements speak about *)

(** The two kinds of file record and the [file_type] a handler passes for
    each. *)
Inductive file_kind : Type := KImage | KDocument.

Definition kind_name (k : file_kind) : str :=
  match k with
  | KImage => lit "Image"
  | KDocument => lit "Document"
  end.

(** The three message handlers, what each replies first and what it
    replies after a successful save. *)
Inductive handler : Type := HText | HPhoto | HDocument.

Definition handle (uc : str → str) (pad : bool) (db : value) (h : handler)
    : Update → prog unit :=
  match h with
  | HText => handle_text db
  | HPhoto => handle_photo uc pad db
  | HDocument => handle_document uc pad db
  end.

Definition ack_reply (h : handler) : str :=
  match h with
  | HText => lit "Traitement du texte..."
  | HPhoto => lit "Traitement de l'image..."
  | HDocument => lit "Traitement du document..."
  end.

Definition success_reply (h : handler) (u : Update) : str :=
  match h with
  | HText => lit "Texte sauvegardé dans Notion !"
  | HPhoto => lit "Image sauvegardée dans Notion !"
  | HDocument =>
      lit "Document '"
        ++ str_of_option (document (message u) ≫= file_name)
        ++ lit "' sauvegardé dans Notion !"
  end.

(** The fields of a text record and of a file record, and the fields of
    the record each handler is to forward. *)
Definition text_fields : gset str :=
  {[ lit "Name"; lit "Type"; lit "Contenu" ]}.

Definition file_fields : gset str :=
  {[ lit "Name"; lit "Type"; lit "Fichier URL" ]}.

Definition fields_of (h : handler) : gset str :=
  match h with
  | HText => text_fields
  | HPhoto | HDocument => file_fields
  end.

(** The library's dispatch of one update to its handler: an [Exception] that
    escapes the handler is passed to the registered error handler. *)
Definition process_update (uc : str → str) (pad : bool) (db : value)
    (h : handler) (u : Update) : prog unit :=
  try_except (handle uc pad db h u)
    [ (λ e, if is_Exception e then Some (error_handler (OfUpdate u) e)
            else None) ].

(** The update carries what its handler reads. *)
Definition has_content (h : handler) (u : Update) : bool :=
  match h with
  | HText => bool_decide (is_Some (text (message u)))
  | HPhoto => negb (bool_decide (photo (message u) = []))
  | HDocument => bool_decide (is_Some (document (message u)))
  end.

(** Every Telegram call of the run returned; the record-creation call, if
    it raised, raised an [Exception]; the record-creation call returned; an
    error was logged. *)
Definition chat_calls_returned (t : list event) : bool :=
  forallb (λ ev, match ev with
                 | EvReply _ (inr _) | EvGetFile _ (inr _) => false
                 | _ => true
                 end) t.

Definition remote_error_caught (t : list event) : bool :=
  forallb (λ ev, match ev with
                 | EvCreate _ _ (inr e) => is_Exception e
                 | _ => true
                 end) t.

Definition create_succeeded (t : list event) : bool :=
  existsb (λ ev, match ev with
                 | EvCreate _ _ (inl _) => true
                 | _ => false
                 end) t.

Definition error_logged (t : list event) : bool :=
  existsb (λ ev, match ev with
                 | EvLog ERROR _ => true
                 | _ => false
                 end) t.

Definition outcome_reply (h : handler) (u : Update) (t : list event) : str :=
  if create_succeeded t then success_reply h u else failure_reply.

(** The reply contract as the specification words it: one acknowledgment,
    then one outcome message, and at most one record-creation call. *)
Definition reply_contract (h : handler) (u : Update) (t : list event)
    : Prop :=
  sent_replies t = [ack_reply h; outcome_reply h u t]
  ∧ length (create_calls t) ≤ 1.




(** The three required settings; a setting is set when the variable is
    there with a value that is not empty, and present when it is there. *)
Definition secrets : list str :=
  [lit "TELEGRAM_BOT_TOKEN"; lit "NOTION_API_KEY"; lit "NOTION_DATABASE_ID"].

Definition is_set (environ : gmap str str) (k : str) : bool :=
  match environ !! k with
  | Some (_ :: _) => true
  | _ => false
  end.

Definition is_present (environ : gmap str str) (k : str) : bool :=
  bool_decide (is_Some (environ !! k)).

(** The start-up contract as the specification words it. *)
Definition startup_contract (environ : gmap str str)
    (Client : value → unit + exn) : Prop :=
  (Exists (λ k, is_present environ k = false) secrets →
   ∃ e, script environ Client = Fatal e)
  ∧ (Forall (λ k, is_present environ k = true) secrets →
     config_check environ = inl tt).

(** Sample inputs. *)
Definition sample_world : world := {|
  clock := λ _, {| year := 2024; month := 5; day := 7;
                   hour := 9; minute := 3; second := 0 |};
  telegram_reply_text := λ _ _, inl tt;
  telegram_get_file := λ _ fid,
    inl {| file_id := fid; file_path := Some (lit "https://example/x") |};
  notion_pages_create := λ _ _ _, inl tt
|}.

Definition sample_user : User := {| first_name := lit "Zoé"; user_id := 42 |}.

Definition sample_file : TelegramFile :=
  {| file_id := lit "F1"; file_path := Some (lit "https://example/x") |}.

Definition sample_text_update : Update := {|
  message := {| text := Some (lit "Hello world"); photo := [];
                document := None |};
  effective_user := sample_user
|}.

Definition sample_photo_update : Update := {|
  message := {| text := None;
                photo := [ {| photo_file_id := lit "small"; width := 90;
                              height := 60 |};
                           {| photo_file_id := lit "medium"; width := 320;
                              height := 213 |};
                           {| photo_file_id := lit "large"; width := 1280;
                              height := 853 |} ];
                document := None |};
  effective_user := sample_user
|}.

Definition sample_document_update : Update := {|
  message := {| text := None; photo := [];
                document := Some {| doc_file_id := lit "F1";
                                    file_name := Some (lit "report.pdf") |} |};
  effective_user := sample_user
|}.

(** A world in which Telegram refuses to resolve the file (a bot cannot
    download a file over 20 MB). *)
Definition too_big_world : world := {|
  clock := clock sample_world;
  telegram_reply_text := λ _ _, inl tt;
  telegram_get_file := λ _ _,
    inr (OtherException (lit "BadRequest") (lit "File is too big"));
  notion_pages_create := λ _ _ _, inl tt
|}.

(** A world in which no reply reaches Telegram. *)
Definition offline_world : world := {|
  clock := clock sample_world;
  telegram_reply_text := λ _ _,
    inr (OtherException (lit "NetworkError") (lit "Connection failed"));
  telegram_get_file := telegram_get_file sample_world;
  notion_pages_create := λ _ _ _, inl tt
|}.

(** An environment in which the three variables are present and the bot
    token is empty. *)
Definition empty_token_environ : gmap str str :=
  <[lit "TELEGRAM_BOT_TOKEN" := []]>
    (<[lit "NOTION_API_KEY" := lit "secret_abc"]>
       (<[lit "NOTION_DATABASE_ID" := lit "0123456789abcdef"]> ∅)).

Definition sample_environ : gmap str str :=
  <[lit "TELEGRAM_BOT_TOKEN" := lit "123:abc"]> empty_token_environ.

(** A check of every number below a bound, and a string of exactly [w]
    decimal digits. *)
Fixpoint all_below (f : N → bool) (k : nat) : bool :=
  match k with
  | O => true
  | S k' => f (N.of_nat k') && all_below f k'
  end.

Definition is_digits (w : nat) (s : str) : bool :=
  (length s =? w) && forallb is_digit s.

(** What follows "Kind: " in the title of a file record: the file name, or
    the clock's time when the file name is absent or empty. *)
Definition file_record_name (pad : bool) (w : world) (n : nat)
    (filename : option str) : str :=
  match filename with
  | Some (c :: f) => c :: f
  | _ => strftime pad (clock w n) (lit "%Y-%m-%d_%H-%M-%S")
  end.

(** More observations of a run: the exceptions its replies raised, the
    exception its file resolution raised, and the clock readings. *)
Definition reply_errors (t : list event) : list exn :=
  omap (λ ev, match ev with EvReply _ (inr e) => Some e | _ => None end) t.

Definition get_file_errors (t : list event) : list exn :=
  omap (λ ev, match ev with EvGetFile _ (inr e) => Some e | _ => None end) t.

Definition clock_reads (t : list event) : list datetime :=
  omap (λ ev, match ev with EvNow (inl d) => Some d | _ => None end) t.

(** Every entry point of the bot that can send a reply, and the sentences
    the source holds for an update: the only part that varies is the file
    name of the document. *)
Inductive entry : Type :=
| OnStart
| OnMessage (h : handler)
| OnError (error : exn).

Definition entry_prog (uc : str → str) (pad : bool) (db : value)
    (en : entry) (u : Update) : prog unit :=
  match en with
  | OnStart => start u
  | OnMessage h => handle uc pad db h u
  | OnError error => error_handler (OfUpdate u) error
  end.

Definition bot_sentences (u : Update) : list str :=
  [ lit "Bonjour ! Envoyez-moi du texte, une image ou un document, et je le sauvegarderai dans votre base de données Notion.";
    ack_reply HText; ack_reply HPhoto; ack_reply HDocument;
    success_reply HText u; success_reply HPhoto u; success_reply HDocument u;
    failure_reply;
    lit "Désolé, une erreur interne est survenue." ].

(** The number a string of decimal digits writes. *)
Fixpoint N_of_digits (acc : N) (s : str) : N :=
  match s with
  | [] => acc
  | c :: rest => N_of_digits (acc * 10 + (c - 48))%N rest
  end.

(** A long file name, a document without file name and a world whose
    last reply fails. *)
Definition long_name : str := replicate 120 (ord "a").

Definition unnamed_document_update : Update := {|
  message := {| text := None; photo := [];
                document := Some {| doc_file_id := lit "F2";
                                    file_name := None |} |};
  effective_user := sample_user
|}.

Definition empty_update : Update := {|
  message := {| text := None; photo := []; document := None |};
  effective_user := sample_user
|}.

Definition network_error : exn :=
  OtherException (lit "NetworkError") (lit "Connection failed").

Definition late_failure_world : world := {|
  clock := clock sample_world;
  telegram_reply_text := λ n _, if n =? 0 then inl tt else inr network_error;
  telegram_get_file := telegram_get_file sample_world;
  notion_pages_create := λ _ _ _, inl tt
|}.

Definition rejecting_world : world := {|
  clock := clock sample_world;
  telegram_reply_text := λ _ _, inl tt;
  telegram_get_file := telegram_get_file sample_world;
  notion_pages_create := λ _ _ _,
    inr (APIResponseError (lit "validation_error")
           (lit "{'object': 'error', 'status': 400}")
           (lit "Name is not a property that exists."))
|}.

(** ** The body of the text record builder, as syntax

    What a function reads besides its arguments shows in its text and in
    nothing else.  These are the expressions and statements the body of
    [get_text_properties] is made of, with the two ways an expression of
    this module reaches outside: a module-level name, and the clock. *)
Inductive expr : Type :=
| ELocal (x : str)                 (* a parameter or a local variable *)
| EGlobal (x : str)                (* a module-level name *)
| EStr (s : str)                   (* a string literal *)
| ESlice (e : expr) (stop : nat)   (* [e[:stop]] *)
| EList (es : exprs)               (* a list display *)
| EDict (kvs : items)              (* a dict display with literal keys *)
| ENowStrftime (fmt : str)         (* [datetime.datetime.now().strftime(fmt)] *)
with exprs : Type :=
| ENil
| ECons (e : expr) (es : exprs)
with items : Type :=
| INil
| ICons (k : str) (e : expr) (kvs : items).

Scheme expr_exprs_items := Induction for expr Sort Prop
  with exprs_expr_items := Induction for exprs Sort Prop
  with items_expr_exprs := Induction for items Sort Prop.

Combined Scheme expr_mutual_ind
  from expr_exprs_items, exprs_expr_items, items_expr_exprs.

Fixpoint list_items (kvs : list (str * expr)) : items :=
  match kvs with
  | [] => INil
  | (k, e) :: rest => ICons k e (list_items rest)
  end.

Fixpoint list_exprs (es : list expr) : exprs :=
  match es with
  | [] => ENil
  | e :: rest => ECons e (list_exprs rest)
  end.

Definition dict_display (kvs : list (str * expr)) : expr :=
  EDict (list_items kvs).

Definition list_display (es : list expr) : expr := EList (list_exprs es).

Inductive stmt : Type :=
| SAssign (x : str) (e : expr)     (* [x = e] *)
| SReturn (e : expr).              (* [return e] *)

(** Lines 57 to 74. *)
Definition get_text_properties_body : list stmt :=
  [ SAssign (lit "title") (ESlice (ELocal (lit "text")) 30);
    SReturn (dict_display
      [ (lit "Name",
          dict_display [ (lit "title",
            list_display [ dict_display [ (lit "text",
              dict_display [ (lit "content", ELocal (lit "title")) ]) ] ]) ]);
        (lit "Type",
          dict_display [ (lit "select",
            dict_display [ (lit "name", EStr (lit "Texte")) ]) ]);
        (lit "Contenu",
          dict_display [ (lit "rich_text",
            list_display
              [ dict_display [ (lit "type", EStr (lit "text"));
                               (lit "text",
                                 dict_display
                                   [ (lit "content", ELocal (lit "text")) ]) ] ]) ]) ]) ].

(** Everything around a call that is not its argument: the world and the
    time of the call, the platform, the module's globals. *)
Record ambient : Type := {
  amb_world : world;
  amb_calls : nat;
  amb_pad_year : bool;
  amb_globals : gmap str value
}.

(** Evaluation; [None] where Python raises. *)
Fixpoint eval (a : ambient) (locals : gmap str value) (e : expr)
    : option value :=
  match e with
  | ELocal x => locals !! x
  | EGlobal x => amb_globals a !! x
  | EStr s => Some (VStr s)
  | ESlice e' stop =>
      match eval a locals e' with
      | Some (VStr s) => Some (VStr (take stop s))
      | Some (VList l) => Some (VList (take stop l))
      | _ => None
      end
  | EList es => VList <$> eval_exprs a locals es
  | EDict kvs => py_dict <$> eval_items a locals kvs
  | ENowStrftime fmt =>
      Some (VStr (strftime (amb_pad_year a)
                    (clock (amb_world a) (amb_calls a)) fmt))
  end
with eval_exprs (a : ambient) (locals : gmap str value) (es : exprs)
    : option (list value) :=
  match es with
  | ENil => Some []
  | ECons e rest =>
      match eval a locals e, eval_exprs a locals rest with
      | Some v, Some vs => Some (v :: vs)
      | _, _ => None
      end
  end
with eval_items (a : ambient) (locals : gmap str value) (kvs : items)
    : option (list (str * value)) :=
  match kvs with
  | INil => Some []
  | ICons k e rest =>
      match eval a locals e, eval_items a locals rest with
      | Some v, Some vs => Some ((k, v) :: vs)
      | _, _ => None
      end
  end.

(** A body that ends without [return] returns [None]. *)
Fixpoint exec (a : ambient) (locals : gmap str value) (body : list stmt)
    : option value :=
  match body with
  | [] => Some VNone
  | SAssign x e :: rest =>
      match eval a locals e with
      | Some v => exec a (<[x := v]> locals) rest
      | None => None
      end
  | SReturn e :: _ => eval a locals e
  end.

(** The call [get_text_properties(text)], on the body. *)
Definition call_get_text_properties (a : ambient) (text : str)
    : option value :=
  exec a {[ lit "text" := VStr text ]} get_text_properties_body.

(** An expression, or a body, names a global or reads the clock. *)
Fixpoint reads_ambient (e : expr) : bool :=
  match e with
  | ELocal _ | EStr _ => false
  | EGlobal _ | ENowStrftime _ => true
  | ESlice e' _ => reads_ambient e'
  | EList es => exprs_read_ambient es
  | EDict kvs => items_read_ambient kvs
  end
with exprs_read_ambient (es : exprs) : bool :=
  match es with
  | ENil => false
  | ECons e rest => reads_ambient e || exprs_read_ambient rest
  end
with items_read_ambient (kvs : items) : bool :=
  match kvs with
  | INil => false
  | ICons _ e rest => reads_ambient e || items_read_ambient rest
  end.

Definition body_reads_ambient (body : list stmt) : bool :=
  existsb (λ st, match st with
                 | SAssign _ e | SReturn e => reads_ambient e
                 end) body.

(** * Properties *)

#[local] Arguments lit : simpl never.
#[local] Arguments strftime : simpl never.
#[local] Arguments capitalize : simpl never.

(** Case analysis on the answers of the world to the calls of a run. *)
Ltac world_answers :=
  repeat match goal with
         | |- context [telegram_reply_text ?w ?n ?m] =>
             destruct (telegram_reply_text w n m) as [[]|?]; cbn
         | |- context [telegram_get_file ?w ?n ?f] =>
             destruct (telegram_get_file w n f) as [?|?]; cbn
         | |- context [notion_pages_create ?w ?n ?a ?b] =>
             destruct (notion_pages_create w n a b) as [[]|[? ? ?|? ?|? ?]]; cbn
         end.

(** ** Strings and timestamps *)

Lemma all_below_spec (f : N → bool) (k : nat) :
  all_below f k = true → ∀ n, (n < N.of_nat k)%N → f n = true.
Proof.
  induction k as [|k IH]; intros Hall n Hn; [lia|].
  cbn [all_below] in Hall. apply andb_prop in Hall as [Hk Hrest].
  destruct (decide (n = N.of_nat k)) as [->|Hne]; [done|].
  apply IH; [done|lia].
Qed.

Lemma zfill_two_digits (n : N) :
  (n < 100)%N → is_digits 2 (zfill 2 (str_of_N n)) = true.
Proof.
  intros Hn.
  apply (all_below_spec (λ n, is_digits 2 (zfill 2 (str_of_N n)))
           (N.to_nat 100)); [by vm_compute | lia].
Qed.

Lemma zfill_four_digits (n : N) :
  (n < 10000)%N → is_digits 4 (zfill 4 (str_of_N n)) = true.
Proof.
  intros Hn.
  apply (all_below_spec (λ n, is_digits 4 (zfill 4 (str_of_N n)))
           (N.to_nat 10000)); [by vm_compute | lia].
Qed.

Lemma is_digits_2_inv (s : str) :
  is_digits 2 s = true →
  ∃ a b, s = [a; b] ∧ is_digit a = true ∧ is_digit b = true.
Proof.
  destruct s as [|a [|b [|c s]]]; try discriminate.
  unfold is_digits; cbn. rewrite andb_true_r.
  intros [? ?]%andb_prop. eauto.
Qed.

Lemma is_digits_4_inv (s : str) :
  is_digits 4 s = true →
  ∃ a b c d, s = [a; b; c; d] ∧ is_digit a = true ∧ is_digit b = true
             ∧ is_digit c = true ∧ is_digit d = true.
Proof.
  destruct s as [|a [|b [|c [|d [|e s]]]]]; try discriminate.
  unfold is_digits; cbn. rewrite andb_true_r.
  intros [? [? [? ?]%andb_prop]%andb_prop]%andb_prop.
  exists a, b, c, d. eauto.
Qed.

Lemma valid_datetime_bounds (d : datetime) :
  valid_datetime d = true →
  (year d < 10000 ∧ month d < 100 ∧ day d < 100
   ∧ hour d < 100 ∧ minute d < 100 ∧ second d < 100)%N.
Proof.
  unfold valid_datetime, days_in_month. intros H.
  repeat (apply andb_prop in H as [H ?]).
  repeat match goal with
         | H : (_ <=? _)%N = true |- _ => apply N.leb_le in H
         | H : (_ <? _)%N = true |- _ => apply N.ltb_lt in H
         end.
  repeat split; try lia.
  repeat case_match; lia.
Qed.

Lemma str_of_N_four_digits (n : N) :
  (1000 ≤ n)%N → (n < 10000)%N → is_digits 4 (str_of_N n) = true.
Proof.
  intros Hlo Hhi.
  pose proof (all_below_spec
    (λ n, (n <? 1000)%N || is_digits 4 (str_of_N n)) (N.to_nat 10000)) as H.
  specialize (H ltac:(vm_compute; reflexivity) n ltac:(lia)). cbn beta in H.
  apply orb_prop in H as [H%N.ltb_lt|H]; [lia|done].
Qed.

(** The year as the platform writes it: four digits from the year 1000
    on, whatever the platform. *)
Lemma year_field_four_digits (pad : bool) (d : datetime) :
  (1000 ≤ year d)%N → (year d < 10000)%N →
  is_digits 4 (year_field pad d) = true.
Proof.
  intros Hlo Hhi. destruct pad; cbn [year_field].
  - by apply zfill_four_digits.
  - by apply str_of_N_four_digits.
Qed.

(** The format of the source, field by field. *)
Lemma strftime_fields (pad : bool) (d : datetime) :
  strftime pad d (lit "%Y-%m-%d_%H-%M-%S") =
    year_field pad d ++ ord "-" ::
    zfill 2 (str_of_N (month d)) ++ ord "-" ::
    zfill 2 (str_of_N (day d)) ++ ord "_" ::
    zfill 2 (str_of_N (hour d)) ++ ord "-" ::
    zfill 2 (str_of_N (minute d)) ++ ord "-" ::
    zfill 2 (str_of_N (second d)) ++ [].
Proof. reflexivity. Qed.

Lemma strftime_matches (pad : bool) (d : datetime) :
  valid_datetime d = true →
  (1000 ≤ year d)%N →
  matches_pattern timestamp_pattern
    (strftime pad d (lit "%Y-%m-%d_%H-%M-%S")) = true.
Proof.
  intros (Hy & Hm & Hd & HH & HM & HS)%valid_datetime_bounds Hlo.
  rewrite strftime_fields.
  destruct (is_digits_4_inv _ (year_field_four_digits pad d Hlo Hy))
    as (y1 & y2 & y3 & y4 & -> & ? & ? & ? & ?).
  destruct (is_digits_2_inv _ (zfill_two_digits _ Hm))
    as (m1 & m2 & -> & ? & ?).
  destruct (is_digits_2_inv _ (zfill_two_digits _ Hd))
    as (d1 & d2 & -> & ? & ?).
  destruct (is_digits_2_inv _ (zfill_two_digits _ HH))
    as (h1 & h2 & -> & ? & ?).
  destruct (is_digits_2_inv _ (zfill_two_digits _ HM))
    as (i1 & i2 & -> & ? & ?).
  destruct (is_digits_2_inv _ (zfill_two_digits _ HS))
    as (s1 & s2 & -> & ? & ?).
  cbv -[is_digit].
  repeat match goal with H : is_digit _ = true |- _ => rewrite H; clear H end.
  reflexivity.
Qed.

Lemma matches_pattern_length (pat s : str) :
  matches_pattern pat s = true → length s = length pat.
Proof.
  revert s; induction pat as [|p pat IH]; intros [|c s]; cbn; try done.
  intros [_ ?]%andb_prop. f_equal. by apply IH.
Qed.

Lemma contains_match_middle (pat pre ts post : str) :
  matches_pattern pat ts = true →
  contains_match pat (pre ++ ts ++ post) = true.
Proof.
  intros Hm. induction pre as [|c pre IH].
  - cbn [app]. assert (Hlen := matches_pattern_length _ _ Hm).
    assert (take (length pat) (ts ++ post) = ts) as Htake.
    { rewrite <- Hlen. by rewrite take_app_length. }
    destruct (ts ++ post); cbn [contains_match]; rewrite Htake, Hm; done.
  - cbn [app contains_match]. rewrite IH. apply orb_true_r.
Qed.

Lemma strftime_nonempty (pad : bool) (d : datetime) :
  5 ≤ length (strftime pad d (lit "%Y-%m-%d_%H-%M-%S")).
Proof.
  rewrite strftime_fields.
  repeat (rewrite ?length_app; cbn [length]). lia.
Qed.

(** ** The record builders *)

#[local] Arguments py_dict : simpl never.

(** C1. For every string [s], [get_text_properties s] is a payload (the
    builder has no error case) whose Name title is the first 30 characters
    of [s], whose Contenu rich text is [s] itself and whose Type select is
    "Texte". *)
Theorem get_text_properties_fields (s : str) :
  (∃ d, get_text_properties s = VDict d)
  ∧ name_title (get_text_properties s) = Some (VStr (take 30 s))
  ∧ contenu_rich_text (get_text_properties s) = Some (VStr s)
  ∧ type_select (get_text_properties s) = Some (VStr (lit "Texte"))
  ∧ length (take 30 s) = length s `min` 30
  ∧ take 30 s `prefix_of` s.
Proof.
  split; [by eexists|].
  repeat split; try reflexivity.
  - rewrite length_take. lia.
  - apply prefix_take.
Qed.

(** The scenario of the specification: the text "Hello world". *)
Example get_text_properties_hello :
  let p := get_text_properties (lit "Hello world") in
  name_title p = Some (VStr (lit "Hello world"))
  ∧ type_select p = Some (VStr (lit "Texte"))
  ∧ contenu_rich_text p = Some (VStr (lit "Hello world")).
Proof. by vm_compute. Qed.

(** What [get_file_properties] does in a world: it reads the clock only
    when the file name is false (absent or empty), and returns a payload. *)
Lemma run_get_file_properties uc pad w n file file_type filename :
  ∃ payload,
    run w n (get_file_properties uc pad file file_type filename)
    = (match filename with
       | Some (_ :: _) => []
       | _ => [EvNow (inl (clock w n))]
       end, inl payload)
    ∧ name_title payload
      = Some (VStr (take 100 (capitalize uc file_type ++ lit ": "
                                ++ file_record_name pad w n filename)))
    ∧ type_select payload = Some (VStr (capitalize uc file_type))
    ∧ fichier_url payload = Some (of_option (file_path file))
    ∧ keys payload = {[ lit "Name"; lit "Type"; lit "Fichier URL" ]}.
Proof.
  destruct filename as [[|c f]|]; eexists; (split; [reflexivity|]);
    (repeat split; try reflexivity);
    unfold py_dict; cbn; rewrite !dom_insert_L; set_solver.
Qed.

Lemma capitalize_kind_name uc (k : file_kind) :
  capitalize uc (kind_name k) = kind_name k.
Proof. by destruct k. Qed.

Lemma run_get_file_properties_kind uc pad w n (k : file_kind)
    (file : TelegramFile) (filename : option str) :
  ∃ payload,
    (run w n (get_file_properties uc pad file (kind_name k) filename)).2
    = inl payload
    ∧ name_title payload
      = Some (VStr (take 100 (kind_name k ++ lit ": "
                                ++ file_record_name pad w n filename)))
    ∧ type_select payload = Some (VStr (kind_name k))
    ∧ fichier_url payload = Some (of_option (file_path file)).
Proof.
  destruct (run_get_file_properties uc pad w n file (kind_name k) filename)
    as (payload & Hrun & Hname & Htype & Hurl & _).
  exists payload. rewrite Hrun.
  rewrite capitalize_kind_name in Hname, Htype. done.
Qed.

Lemma get_text_properties_keys (s : str) :
  keys (get_text_properties s) = text_fields.
Proof.
  unfold get_text_properties, py_dict, text_fields; cbn.
  rewrite !dom_insert_L. set_solver.
Qed.

(** C3. For each kind, download URL and optional file name, the file
    record builder returns a payload whose Type select is the capitalized
    kind, whose Name title is "Kind: " followed by the file name (or, when
    there is none, by the clock formatted as YYYY-MM-DD_HH-MM-SS), cut to
    at most 100 characters, and whose Fichier URL is the download URL
    unchanged. *)
Theorem get_file_properties_fields uc pad w n (k : file_kind)
    (file : TelegramFile) (filename : option str) :
  ∃ payload title,
    (run w n (get_file_properties uc pad file (kind_name k) filename)).2
    = inl payload
    ∧ type_select payload = Some (VStr (capitalize uc (kind_name k)))
    ∧ capitalize uc (kind_name k) = kind_name k
    ∧ name_title payload = Some (VStr title)
    ∧ title = take 100 (capitalize uc (kind_name k) ++ lit ": "
                          ++ file_record_name pad w n filename)
    ∧ length title ≤ 100
    ∧ fichier_url payload = Some (of_option (file_path file)).
Proof.
  destruct (run_get_file_properties_kind uc pad w n k file filename)
    as (payload & Hrun & Hname & Htype & Hurl).
  exists payload; eexists.
  rewrite capitalize_kind_name.
  repeat split; try done.
  rewrite length_take. lia.
Qed.

(** The scenario of the specification: the document "report.pdf" resolved
    to "https://example/x". *)
Example get_file_properties_report uc pad w n fid :
  ∃ payload,
    (run w n (get_file_properties uc pad
                {| file_id := fid; file_path := Some (lit "https://example/x") |}
                (lit "Document") (Some (lit "report.pdf")))).2 = inl payload
    ∧ name_title payload = Some (VStr (lit "Document: report.pdf"))
    ∧ type_select payload = Some (VStr (lit "Document"))
    ∧ fichier_url payload = Some (VStr (lit "https://example/x")).
Proof. eexists. by vm_compute. Qed.

(** C4. A payload of the text builder has the fields Name, Type and
    Contenu and no other; a payload of the file builder has the fields
    Name, Type and Fichier URL and no other; and the record a handler
    forwards has the fields of its kind of event. *)
Theorem payload_fields uc pad db w n (s : str) (k : file_kind)
    (file : TelegramFile) (filename : option str) (h : handler) (u : Update) :
  keys (get_text_properties s) = {[ lit "Name"; lit "Type"; lit "Contenu" ]}
  ∧ (lit "Fichier URL" ∉ keys (get_text_properties s))
  ∧ (∃ payload,
      (run w n (get_file_properties uc pad file (kind_name k) filename)).2
      = inl payload
      ∧ keys payload = {[ lit "Name"; lit "Type"; lit "Fichier URL" ]}
      ∧ (lit "Contenu" ∉ keys payload))
  ∧ Forall (λ c, keys c.2 = fields_of h)
      (create_calls (run w n (handle uc pad db h u)).1).
Proof.
  split; [apply get_text_properties_keys|]. split.
  { rewrite get_text_properties_keys. by vm_compute. }
  split.
  { destruct (run_get_file_properties uc pad w n file (kind_name k) filename)
      as (payload & Hrun & _ & _ & _ & Hkeys).
    exists payload. rewrite Hrun, Hkeys. split; [done|]. split; [done|].
    by vm_compute. }
  assert (∀ a b c : value,
    keys (py_dict [ (lit "Name", a); (lit "Type", b); (lit "Fichier URL", c) ])
    = file_fields) as Hfile.
  { intros a b c. unfold py_dict, file_fields; cbn.
    rewrite !dom_insert_L. set_solver. }
  destruct u as [[txt ph doc] user].
  destruct h; unfold handle, handle_text, handle_photo, handle_document,
    fields_of; cbn.
  - destruct txt as [m|]; cbn; world_answers;
      repeat constructor; apply get_text_properties_keys.
  - destruct (last ph) as [p|]; cbn; world_answers;
      repeat constructor; apply Hfile.
  - destruct doc as [[fid [[|c f]|]]|]; cbn; world_answers;
      repeat constructor; apply Hfile.
Qed.

(** C5. When the file name is omitted and the clock holds a valid date of
    the year 1000 or later (from where on every platform writes the year
    with four digits), the Name title is the kind, ": " and the clock's
    time, which has the shape YYYY-MM-DD_HH-MM-SS: the title contains a
    timestamp. *)
Theorem omitted_filename_timestamp uc pad w n (k : file_kind)
    (file : TelegramFile) :
  valid_datetime (clock w n) = true →
  (1000 ≤ year (clock w n))%N →
  ∃ payload title,
    (run w n (get_file_properties uc pad file (kind_name k) None)).2 = inl payload
    ∧ name_title payload = Some (VStr title)
    ∧ title = kind_name k ++ lit ": "
                ++ strftime pad (clock w n) (lit "%Y-%m-%d_%H-%M-%S")
    ∧ matches_pattern timestamp_pattern
        (strftime pad (clock w n) (lit "%Y-%m-%d_%H-%M-%S")) = true
    ∧ contains_match timestamp_pattern title = true.
Proof.
  intros Hvalid Hyear.
  destruct (run_get_file_properties_kind uc pad w n k file None)
    as (payload & Hrun & Hname & _).
  assert (Hm := strftime_matches pad _ Hvalid Hyear).
  assert (Hlen := matches_pattern_length _ _ Hm).
  exists payload; eexists. cbn [file_record_name] in Hname.
  rewrite take_ge in Hname.
  2:{ rewrite !length_app, Hlen. destruct k; vm_compute; lia. }
  repeat split; try done.
  rewrite (app_assoc (kind_name k)), <- (app_nil_r (strftime _ _ _)).
  by apply contains_match_middle.
Qed.

Lemma omitted_filename_timestamp_witness :
  valid_datetime (clock sample_world 0) = true
  ∧ (1000 ≤ year (clock sample_world 0))%N
  ∧ ∃ payload title,
      (run sample_world 0
         (get_file_properties (λ s, s) false sample_file (kind_name KImage) None)).2
      = inl payload
      ∧ name_title payload = Some (VStr title)
      ∧ contains_match timestamp_pattern title = true.
Proof.
  split; [reflexivity|]. split; [vm_compute; discriminate|].
  destruct (omitted_filename_timestamp (λ s, s) false sample_world 0 KImage
              sample_file) as (payload & title & Hrun & Hname & _ & _ & Hts);
    [reflexivity | vm_compute; discriminate |].
  exists payload, title. auto.
Defined.

(** C9. An empty file name is an absent one: the builder is the same
    program for both, so it builds the same Name in every world; and the
    title of a file record always has something after "Kind: ". *)
Theorem empty_filename_is_absent uc pad w n (k : file_kind) (file : TelegramFile)
    (filename : option str) :
  get_file_properties uc pad file (kind_name k) (Some [])
  = get_file_properties uc pad file (kind_name k) None
  ∧ run w n (get_file_properties uc pad file (kind_name k) (Some []))
    = run w n (get_file_properties uc pad file (kind_name k) None)
  ∧ ∃ payload rest,
      (run w n (get_file_properties uc pad file (kind_name k) filename)).2
      = inl payload
      ∧ name_title payload
        = Some (VStr (capitalize uc (kind_name k) ++ lit ": " ++ rest))
      ∧ rest ≠ [].
Proof.
  split; [reflexivity|]. split; [reflexivity|].
  destruct (run_get_file_properties_kind uc pad w n k file filename)
    as (payload & Hrun & Hname & _).
  exists payload,
    (take (100 - length (kind_name k ++ lit ": "))
       (file_record_name pad w n filename)).
  split; [done|]. rewrite Hname, capitalize_kind_name. split.
  - do 2 f_equal. rewrite (app_assoc (kind_name k)), take_app.
    rewrite take_ge; [by rewrite <- app_assoc|].
    destruct k; vm_compute; lia.
  - intros Hnil%(f_equal length). rewrite length_take in Hnil.
    assert (1 ≤ length (file_record_name pad w n filename)).
    { destruct filename as [[|c f]|]; cbn [file_record_name length];
        try lia; pose proof (strftime_nonempty pad (clock w n)); lia. }
    assert (length (kind_name k ++ lit ": ") ≤ 10)
      by (destruct k; vm_compute; lia).
    cbn [length] in Hnil. lia.
Qed.

Lemma eval_without_ambient (a1 a2 : ambient) (locals : gmap str value) :
  (∀ e, reads_ambient e = false → eval a1 locals e = eval a2 locals e)
  ∧ (∀ es, exprs_read_ambient es = false →
           eval_exprs a1 locals es = eval_exprs a2 locals es)
  ∧ (∀ kvs, items_read_ambient kvs = false →
            eval_items a1 locals kvs = eval_items a2 locals kvs).
Proof.
  apply expr_mutual_ind; cbn; try done.
  - intros e IH stop Hfree. by rewrite IH.
  - intros es IH Hfree. by rewrite IH.
  - intros kvs IH Hfree. by rewrite IH.
  - intros e IHe es IHes [He Hes]%orb_false_elim. by rewrite IHe, IHes.
  - intros k e IHe kvs IHkvs [He Hkvs]%orb_false_elim. by rewrite IHe, IHkvs.
Qed.

Lemma exec_without_ambient (a1 a2 : ambient) (body : list stmt) :
  body_reads_ambient body = false →
  ∀ locals, exec a1 locals body = exec a2 locals body.
Proof.
  induction body as [|[x e|e] body IH]; cbn; intros Hfree locals; [done|..].
  - apply orb_false_elim in Hfree as [He Hbody].
    rewrite (proj1 (eval_without_ambient a1 a2 locals) e He).
    destruct (eval a2 locals e); [by apply IH|done].
  - apply orb_false_elim in Hfree as [He _].
    by apply (eval_without_ambient a1 a2 locals).
Qed.

(** An expression that reads the clock does depend on what is around the
    call: the property above is one of the body, not of the language. *)
Lemma clock_expression_depends (pad : bool) :
  eval {| amb_world := sample_world; amb_calls := 0; amb_pad_year := pad;
          amb_globals := ∅ |} ∅ (ENowStrftime (lit "%Y"))
  ≠ eval {| amb_world := {| clock := λ _, {| year := 2025; month := 1;
                                            day := 1; hour := 0; minute := 0;
                                            second := 0 |};
                           telegram_reply_text := λ _ _, inl tt;
                           telegram_get_file := telegram_get_file sample_world;
                           notion_pages_create := λ _ _ _, inl tt |};
            amb_calls := 0; amb_pad_year := pad; amb_globals := ∅ |}
         ∅ (ENowStrftime (lit "%Y")).
Proof. destruct pad; vm_compute; discriminate. Qed.

(** C10. The body of the text record builder names no global and reads no
    clock, so two calls on the same string return the same payload
    whatever surrounds them: the world, the time, the platform and the
    module's globals.  The payload is the one [get_text_properties]
    gives. *)
Theorem get_text_properties_deterministic (s : str) (a1 a2 : ambient) :
  body_reads_ambient get_text_properties_body = false
  ∧ call_get_text_properties a1 s = call_get_text_properties a2 s
  ∧ call_get_text_properties a1 s = Some (get_text_properties s).
Proof.
  assert (body_reads_ambient get_text_properties_body = false) as Hfree
    by (vm_compute; reflexivity).
  split; [exact Hfree|]. split.
  - unfold call_get_text_properties. by apply exec_without_ambient.
  - reflexivity.
Qed.

(** ** The forwarder *)

#[local] Arguments get_text_properties : simpl never.

(** C2. The forwarder makes the record-creation call once.  It returns
    true exactly when the call returns, false when the call raises an API
    error or any other [Exception] (which it logs), and never calls
    again. *)
Theorem save_to_notion_result db w n (page_properties : value) :
  let parent := py_dict [ (lit "database_id", db) ] in
  let r := notion_pages_create w n parent page_properties in
  let t := (run w n (save_to_notion db page_properties)).1 in
  let o := (run w n (save_to_notion db page_properties)).2 in
  create_calls t = [ (parent, page_properties) ]
  ∧ o = match r with
        | inl _ => inl true
        | inr e => if is_Exception e then inl false else inr e
        end
  ∧ (o = inl true ↔ r = inl tt)
  ∧ error_logged t = match r with
                     | inl _ => false
                     | inr e => is_Exception e
                     end.
Proof.
  cbn zeta. unfold save_to_notion. cbn.
  destruct (notion_pages_create w n _ page_properties)
    as [[]|[code body msg|cls msg|cls msg]];
    cbn; repeat split; try done.
Qed.

(** ** The handlers *)

(** C6, as amended.  A handler makes at most one record-creation call and
    its replies are the acknowledgment, then the outcome, and no other.
    When the update carries what the handler reads, every Telegram call
    returns and the record-creation call returns or raises an [Exception],
    the handler returns having sent exactly the acknowledgment and then the
    outcome (the success text if the record was created, the failure text
    if not) and having made exactly one record-creation call. *)
Theorem handler_reply_protocol uc pad db w (h : handler) (u : Update) :
  let t := (run w 0 (handle uc pad db h u)).1 in
  length (create_calls t) ≤ 1
  ∧ reply_calls t `prefix_of` [ack_reply h; outcome_reply h u t]
  ∧ (has_content h u = true →
     chat_calls_returned t = true →
     remote_error_caught t = true →
     (run w 0 (handle uc pad db h u)).2 = inl tt
     ∧ sent_replies t = [ack_reply h; outcome_reply h u t]
     ∧ length (create_calls t) = 1).
Proof.
  destruct u as [[txt ph doc] user].
  destruct h; unfold handle, handle_text, handle_photo, handle_document,
    has_content, outcome_reply, success_reply; cbn.
  - destruct txt as [m|]; cbn; world_answers;
      (split; [lia|]); (split; [by eexists|]); by intros.
  - destruct (last ph) as [p|] eqn:Hlast; cbn; world_answers;
      (split; [lia|]); (split; [by eexists|]); try by intros.
    apply last_None in Hlast as ->. by intros.
  - destruct doc as [[fid [[|c f]|]]|]; cbn; world_answers;
      (split; [lia|]); (split; [by eexists|]); by intros.
Qed.

(** C6, as the specification words it, fails: a document that Telegram
    refuses to resolve is acknowledged and gets no outcome reply from the
    handler. *)
Lemma reply_contract_counterexample :
  sent_replies
    (run too_big_world 0
       (handle (λ s, s) false (VStr (lit "db")) HDocument sample_document_update)).1
  = [ack_reply HDocument]
  ∧ ¬ reply_contract HDocument sample_document_update
        (run too_big_world 0
           (handle (λ s, s) false (VStr (lit "db")) HDocument
              sample_document_update)).1.
Proof.
  split; [by vm_compute|].
  intros [Hreplies _]. by vm_compute in Hreplies.
Qed.

(** The same runs seen through the dispatch, error handler included: the
    user gets the acknowledgment and then the error handler's sentence,
    which is neither outcome reply; and when no reply gets through, the
    user gets nothing and no record is created. *)
Lemma process_update_replies :
  sent_replies
    (run too_big_world 0
       (process_update (λ s, s) false (VStr (lit "db")) HDocument
          sample_document_update)).1
  = [ack_reply HDocument; lit "Désolé, une erreur interne est survenue."]
  ∧ sent_replies
      (run offline_world 0
         (process_update (λ s, s) false (VStr (lit "db")) HText
            sample_text_update)).1
    = []
  ∧ create_calls
      (run offline_world 0
         (process_update (λ s, s) false (VStr (lit "db")) HText
            sample_text_update)).1
    = [].
Proof. by vm_compute. Qed.

Lemma handler_reply_protocol_witness :
  let t := (run sample_world 0
              (handle (λ s, s) false (VStr (lit "db")) HText sample_text_update)).1 in
  has_content HText sample_text_update = true
  ∧ chat_calls_returned t = true
  ∧ remote_error_caught t = true
  ∧ (run sample_world 0
       (handle (λ s, s) false (VStr (lit "db")) HText sample_text_update)).2 = inl tt
  ∧ sent_replies t = [ack_reply HText; outcome_reply HText sample_text_update t]
  ∧ length (create_calls t) = 1.
Proof.
  cbn zeta.
  split; [vm_compute; reflexivity|].
  split; [vm_compute; reflexivity|].
  split; [vm_compute; reflexivity|].
  apply (handler_reply_protocol (λ s, s) false (VStr (lit "db")) sample_world
           HText sample_text_update); vm_compute; reflexivity.
Defined.





(** ** Start-up *)

(** C7, as the specification words it, fails: with the three variables
    present and the bot token empty, the check raises. *)
Lemma startup_contract_counterexample :
  Forall (λ k, is_present empty_token_environ k = true) secrets
  ∧ config_check empty_token_environ = inr config_error
  ∧ ¬ startup_contract empty_token_environ (λ _, inl tt).
Proof.
  assert (Forall (λ k, is_present empty_token_environ k = true) secrets)
    as Hall by (repeat constructor).
  split; [done|]. split; [by vm_compute|].
  intros [_ Hpresent]. specialize (Hpresent Hall).
  by vm_compute in Hpresent.
Qed.

(** C7, as amended.  If one of the three settings is absent or empty, the
    script raises the configuration error and never reaches [main], where
    the event loop and the handlers would start; if the three are set, the
    check raises nothing. *)
Theorem startup_check (environ : gmap str str) (Client : value → unit + exn) :
  (Exists (λ k, is_set environ k = false) secrets →
   script environ Client = Fatal config_error
   ∧ event_loop_started (script environ Client) = false)
  ∧ (Forall (λ k, is_set environ k = true) secrets →
     config_check environ = inl tt).
Proof.
  unfold script, config_check, py_all, getenv, secrets, is_set.
  rewrite !Exists_cons, !Forall_cons, Exists_nil.
  destruct (environ !! lit "TELEGRAM_BOT_TOKEN") as [[|? ?]|];
    destruct (environ !! lit "NOTION_API_KEY") as [[|? ?]|];
    destruct (environ !! lit "NOTION_DATABASE_ID") as [[|? ?]|];
    cbn;
    (split; [intros [Hk|[Hk|[Hk|[]]]] | intros (H1 & H2 & H3 & _)]);
    done.
Qed.

Lemma startup_check_witness :
  script empty_token_environ (λ _, inl tt) = Fatal config_error
  ∧ config_check sample_environ = inl tt.
Proof.
  split.
  - apply (startup_check empty_token_environ (λ _, inl tt)).
    apply Exists_cons_hd. reflexivity.
  - apply (startup_check sample_environ (λ _, inl tt)).
    repeat constructor.
Defined.

(** * Further properties of the handlers *)

Ltac in_list :=
  repeat match goal with
         | |- Forall _ [] => apply Forall_nil_2
         | |- Forall _ (_ :: _) => apply Forall_cons_2
         | |- ?x ∈ ?y :: _ =>
             first [ constr_eq x y; apply list_elem_of_here
                   | apply list_elem_of_further ]
         end.

(** X1. The error handler logs the error and, when it was given an update
    with a message, tries one reply, the fixed sentence, and drops an
    [Exception] of that reply after logging it; given anything else it
    replies nothing.  It never raises an [Exception] itself, resolves no
    file and creates no record. *)
Theorem error_handler_swallows w n (update : error_update) (error : exn) :
  let sorry := lit "Désolé, une erreur interne est survenue." in
  let r := telegram_reply_text w n sorry in
  let t := (run w n (error_handler update error)).1 in
  (run w n (error_handler update error)).2
  = match update, r with
    | OfUpdate _, inr e => if is_Exception e then inl tt else inr e
    | _, _ => inl tt
    end
  ∧ reply_calls t
    = match update with
      | OfUpdate _ => [sorry]
      | NotAnUpdate | WithoutMessage => []
      end
  ∧ create_calls t = []
  ∧ get_file_calls t = []
  ∧ logged t
    = (ERROR, lit "Exception lors du traitement d'une mise à jour: "
                ++ str_of_exn error)
      :: match update, r with
         | OfUpdate _, inr e =>
             if is_Exception e then
               [ (ERROR,
                  lit "Impossible d'envoyer un message d'erreur à l'utilisateur: "
                    ++ str_of_exn e) ]
             else []
         | _, _ => []
         end.
Proof.
  cbn zeta. unfold error_handler.
  destruct update as [| |u]; cbn; [done..|].
  destruct (telegram_reply_text w n _) as [[]|[? ? ?|? ?|? ?]]; cbn; done.
Qed.

(** X2. Whatever the world answers, every reply an entry point of the bot
    sends is one of the sentences of the source, in which only the file
    name of the document varies: the text of the message, the name of the
    user and the URL of a file are never sent back. *)
Theorem replies_are_bot_sentences uc pad db w n (en : entry) (u : Update) :
  Forall (λ msg, msg ∈ bot_sentences u)
    (reply_calls (run w n (entry_prog uc pad db en u)).1).
Proof.
  destruct u as [[txt ph doc] user].
  destruct en as [|[| |]|error];
    unfold entry_prog, handle, start, handle_text, handle_photo,
      handle_document, error_handler, bot_sentences, success_reply; cbn.
  - world_answers; in_list.
  - destruct txt as [m|]; cbn; world_answers; in_list.
  - destruct (last ph) as [p|]; cbn; world_answers; in_list.
  - destruct doc as [[fid [[|c f]|]]|]; cbn; world_answers; in_list.
  - destruct (telegram_reply_text w n _) as [[]|[? ? ?|? ?|? ?]]; cbn;
      in_list.
Qed.

(** X3. When the acknowledgment cannot be sent, the handler stops there:
    the exception of the reply escapes, no file is resolved, no record is
    created and nothing else is sent. *)
Theorem ack_failure_aborts uc pad db w (h : handler) (u : Update) (e : exn) :
  has_content h u = true →
  telegram_reply_text w 0 (ack_reply h) = inr e →
  let t := (run w 0 (handle uc pad db h u)).1 in
  (run w 0 (handle uc pad db h u)).2 = inr e
  ∧ reply_calls t = [ack_reply h]
  ∧ sent_replies t = []
  ∧ get_file_calls t = []
  ∧ create_calls t = []
  ∧ clock_reads t = [].
Proof.
  destruct u as [[txt ph doc] user].
  destruct h; unfold handle, handle_text, handle_photo, handle_document,
    has_content, ack_reply; cbn.
  - destruct txt as [m|]; [|done]. intros _ Hack. cbn. by rewrite Hack.
  - intros _ Hack. by rewrite Hack.
  - destruct doc as [d|]; [|done]. intros _ Hack. cbn. by rewrite Hack.
Qed.

Lemma ack_failure_aborts_witness :
  (run offline_world 0
     (handle (λ s, s) false (VStr (lit "db")) HPhoto sample_photo_update)).2
  = inr network_error.
Proof.
  apply (ack_failure_aborts (λ s, s) false (VStr (lit "db")) offline_world HPhoto
           sample_photo_update network_error); reflexivity.
Defined.

(** X4. When Telegram fails to resolve the file of a photo or of a
    document, the handler raises that exception after the acknowledgment:
    the user got the acknowledgment and nothing more, the clock was not
    read and no record was created. *)
Theorem get_file_failure_aborts uc pad db w (h : handler) (u : Update) (e : exn) :
  let t := (run w 0 (handle uc pad db h u)).1 in
  get_file_errors t = [e] →
  (run w 0 (handle uc pad db h u)).2 = inr e
  ∧ sent_replies t = [ack_reply h]
  ∧ reply_errors t = []
  ∧ create_calls t = []
  ∧ clock_reads t = [].
Proof.
  destruct u as [[txt ph doc] user].
  destruct h; unfold handle, handle_text, handle_photo, handle_document,
    ack_reply; cbn.
  - destruct txt as [m|]; cbn; world_answers; done.
  - destruct (last ph) as [p|]; cbn; world_answers; try done;
      by intros [= ->].
  - destruct doc as [[fid [[|c f]|]]|]; cbn; world_answers; try done;
      by intros [= ->].
Qed.

Lemma get_file_failure_aborts_witness :
  sent_replies
    (run too_big_world 0
       (handle (λ s, s) false (VStr (lit "db")) HDocument sample_document_update)).1
  = [ack_reply HDocument].
Proof.
  apply (get_file_failure_aborts (λ s, s) false (VStr (lit "db")) too_big_world
           HDocument sample_document_update
           (OtherException (lit "BadRequest") (lit "File is too big"))).
  vm_compute. reflexivity.
Defined.

(** X5. When the acknowledgment went out and a later reply fails, it is the
    outcome reply: the record-creation call was already made, once, and
    the handler raises the exception of the reply; the write is not undone
    and the user is not told its outcome. *)
Theorem outcome_reply_failure uc pad db w (h : handler) (u : Update) (e : exn) :
  let t := (run w 0 (handle uc pad db h u)).1 in
  sent_replies t = [ack_reply h] →
  reply_errors t = [e] →
  (run w 0 (handle uc pad db h u)).2 = inr e
  ∧ length (create_calls t) = 1
  ∧ reply_calls t = [ack_reply h; outcome_reply h u t].
Proof.
  destruct u as [[txt ph doc] user].
  destruct h; unfold handle, handle_text, handle_photo, handle_document,
    ack_reply, outcome_reply, success_reply; cbn.
  - destruct txt as [m|]; cbn; world_answers; try done;
      by intros _ [= ->].
  - destruct (last ph) as [p|]; cbn; world_answers; try done;
      by intros _ [= ->].
  - destruct doc as [[fid [[|c f]|]]|]; cbn; world_answers; try done;
      by intros _ [= ->].
Qed.

Lemma outcome_reply_failure_witness :
  length
    (create_calls
       (run late_failure_world 0
          (handle (λ s, s) false (VStr (lit "db")) HText sample_text_update)).1)
  = 1.
Proof.
  apply (outcome_reply_failure (λ s, s) false (VStr (lit "db")) late_failure_world
           HText sample_text_update network_error); vm_compute; reflexivity.
Defined.

(** X6. An update without the content its handler reads makes the handler
    raise before any file is resolved or any record created.  The text and
    the document handlers raise at once, without a log line or a reply; the
    photo handler has logged and tried the acknowledgment before it indexes
    the empty list. *)
Theorem missing_content_raises uc pad db w (h : handler) (u : Update) :
  has_content h u = false →
  let t := (run w 0 (handle uc pad db h u)).1 in
  (∃ e, (run w 0 (handle uc pad db h u)).2 = inr e)
  ∧ get_file_calls t = []
  ∧ create_calls t = []
  ∧ reply_calls t = match h with HPhoto => [ack_reply h] | _ => [] end
  ∧ length (logged t) = match h with HPhoto => 1 | _ => 0 end.
Proof.
  destruct u as [[txt ph doc] user].
  destruct h; unfold handle, handle_text, handle_photo, handle_document,
    has_content, ack_reply; cbn.
  - destruct txt as [m|]; [done|]. intros _. cbn. eauto 10.
  - destruct ph as [|p ph]; [|done]. intros _. cbn.
    world_answers; eauto 10.
  - destruct doc as [d|]; [done|]. intros _. cbn. eauto 10.
Qed.

Lemma missing_content_raises_witness :
  reply_calls
    (run sample_world 0
       (handle (λ s, s) false (VStr (lit "db")) HPhoto empty_update)).1
  = [ack_reply HPhoto].
Proof.
  apply (missing_content_raises (λ s, s) false (VStr (lit "db")) sample_world
           HPhoto empty_update). reflexivity.
Defined.

(** X7. The document handler resolves the file of the document, and no
    other, once the acknowledgment is sent; the record it forwards is a
    Document record that carries the URL the file resolved to and is named
    after the document's file name (after the clock, when the document has
    no file name). *)
Theorem handle_document_forwards uc pad db w (u : Update) (doc : Document) :
  document (message u) = Some doc →
  let t := (run w 0 (handle_document uc pad db u)).1 in
  get_file_calls t
  = match telegram_reply_text w 0 (ack_reply HDocument) with
    | inl _ => [doc_file_id doc]
    | inr _ => []
    end
  ∧ match telegram_reply_text w 0 (ack_reply HDocument),
          telegram_get_file w 1 (doc_file_id doc) with
    | inl _, inl f =>
        ∃ payload,
          create_calls t = [ (py_dict [ (lit "database_id", db) ], payload) ]
          ∧ fichier_url payload = Some (of_option (file_path f))
          ∧ type_select payload = Some (VStr (lit "Document"))
          ∧ name_title payload
            = Some (VStr (take 100 (lit "Document: "
                                      ++ file_record_name pad w 2 (file_name doc))))
    | _, _ => create_calls t = []
    end.
Proof.
  intros Hdoc. destruct u as [[txt ph d] user]. cbn in Hdoc. subst d.
  unfold handle_document, ack_reply. cbn.
  destruct (telegram_reply_text w 0 _) as [[]|?]; cbn; [|done].
  destruct (telegram_get_file w 1 _) as [f|?]; cbn; [|done].
  destruct doc as [fid [[|c name]|]]; cbn;
    world_answers; (split; [done|]); eexists; (split; [reflexivity|]);
    by vm_compute.
Qed.

Lemma handle_document_forwards_witness :
  get_file_calls
    (run sample_world 0
       (handle_document (λ s, s) false (VStr (lit "db")) sample_document_update)).1
  = [lit "F1"].
Proof.
  destruct (handle_document_forwards (λ s, s) false (VStr (lit "db")) sample_world
              sample_document_update
              {| doc_file_id := lit "F1"; file_name := Some (lit "report.pdf") |})
    as (H & _); [reflexivity|].
  exact H.
Defined.

(** X8. The text handler forwards the text record of the message text to
    the configured database once the acknowledgment is sent, and nothing
    before; it never resolves a file and never reads the clock. *)
Theorem handle_text_forwards db w (u : Update) (m : str) :
  text (message u) = Some m →
  let t := (run w 0 (handle_text db u)).1 in
  create_calls t
  = match telegram_reply_text w 0 (ack_reply HText) with
    | inl _ => [ (py_dict [ (lit "database_id", db) ], get_text_properties m) ]
    | inr _ => []
    end
  ∧ get_file_calls t = []
  ∧ clock_reads t = [].
Proof.
  intros Htext. destruct u as [[txt ph d] user]. cbn in Htext. subst txt.
  unfold handle_text, ack_reply. cbn. world_answers; done.
Qed.

Lemma handle_text_forwards_witness :
  create_calls
    (run sample_world 0 (handle_text (VStr (lit "db")) sample_text_update)).1
  = [ (py_dict [ (lit "database_id", VStr (lit "db")) ],
       get_text_properties (lit "Hello world")) ].
Proof.
  destruct (handle_text_forwards (VStr (lit "db")) sample_world
              sample_text_update (lit "Hello world")) as (H & _);
    [reflexivity|].
  exact H.
Defined.

(** X9. A document without a file name is saved under the clock's time,
    and the success reply formats the missing name as Python formats
    [None]: the user reads "Document 'None' sauvegardé dans Notion !". *)
Theorem unnamed_document_reply uc pad db w (u : Update) (doc : Document) :
  document (message u) = Some doc →
  file_name doc = None →
  let t := (run w 0 (handle_document uc pad db u)).1 in
  chat_calls_returned t = true →
  create_succeeded t = true →
  sent_replies t
  = [ lit "Traitement du document...";
      lit "Document 'None' sauvegardé dans Notion !" ]
  ∧ ∃ payload,
      (create_calls t).*2 = [payload]
      ∧ name_title payload
        = Some (VStr (take 100
                        (lit "Document: "
                           ++ strftime pad (clock w 2) (lit "%Y-%m-%d_%H-%M-%S")))).
Proof.
  intros Hdoc Hname. destruct u as [[txt ph d] user]. cbn in Hdoc. subst d.
  destruct doc as [fid name]. cbn in Hname. subst name.
  unfold handle_document. cbn.
  world_answers; intros Hchat Hcreated;
    try discriminate Hchat; try discriminate Hcreated.
  split.
  - vm_compute. reflexivity.
  - eexists. split; reflexivity.
Qed.

Lemma unnamed_document_reply_witness :
  sent_replies
    (run sample_world 0
       (handle_document (λ s, s) false (VStr (lit "db")) unnamed_document_update)).1
  = [ lit "Traitement du document...";
      lit "Document 'None' sauvegardé dans Notion !" ].
Proof.
  destruct (unnamed_document_reply (λ s, s) false (VStr (lit "db")) sample_world
              unnamed_document_update
              {| doc_file_id := lit "F2"; file_name := None |}) as (H & _);
    [reflexivity | reflexivity | vm_compute; reflexivity
    | vm_compute; reflexivity |].
  exact H.
Defined.

(** * Further properties of the builders and of the forwarder *)

(** X10. A file name that fits appears whole: when "Kind: name" has at most
    100 characters, it is the title. *)
Theorem fitting_filename_whole uc pad w n (k : file_kind) (file : TelegramFile)
    (name : str) :
  name ≠ [] →
  length (kind_name k ++ lit ": " ++ name) ≤ 100 →
  ∃ payload,
    (run w n (get_file_properties uc pad file (kind_name k) (Some name))).2
    = inl payload
    ∧ name_title payload = Some (VStr (kind_name k ++ lit ": " ++ name)).
Proof.
  intros Hne Hlen.
  destruct (run_get_file_properties_kind uc pad w n k file (Some name))
    as (payload & Hrun & Hname & _).
  exists payload. split; [exact Hrun|]. rewrite Hname.
  destruct name as [|c name]; [by destruct Hne|].
  cbn [file_record_name]. by rewrite take_ge.
Qed.

Lemma fitting_filename_whole_witness :
  ∃ payload,
    (run sample_world 0
       (get_file_properties (λ s, s) false sample_file (kind_name KDocument)
          (Some (lit "report.pdf")))).2 = inl payload
    ∧ name_title payload
      = Some (VStr (kind_name KDocument ++ lit ": " ++ lit "report.pdf")).
Proof.
  apply (fitting_filename_whole (λ s, s) false sample_world 0 KDocument sample_file
           (lit "report.pdf")).
  - vm_compute. discriminate.
  - vm_compute. lia.
Defined.

(** X11. A file name that does not fit is cut, without an error: when
    "Kind: name" has more than 100 characters, the title is its first 100
    characters, so the end of the name (its extension) is lost. *)
Theorem long_filename_cut uc pad w n (k : file_kind) (file : TelegramFile)
    (name : str) :
  100 < length (kind_name k ++ lit ": " ++ name) →
  ∃ payload title,
    (run w n (get_file_properties uc pad file (kind_name k) (Some name))).2
    = inl payload
    ∧ name_title payload = Some (VStr title)
    ∧ length title = 100
    ∧ title `prefix_of` kind_name k ++ lit ": " ++ name
    ∧ title ≠ kind_name k ++ lit ": " ++ name.
Proof.
  intros Hlen.
  destruct (run_get_file_properties_kind uc pad w n k file (Some name))
    as (payload & Hrun & Hname & _).
  assert (name ≠ []) as Hne.
  { intros ->. destruct k; vm_compute in Hlen; lia. }
  destruct name as [|c name]; [done|]. cbn [file_record_name] in Hname.
  exists payload; eexists. split; [exact Hrun|]. split; [exact Hname|].
  split; [|split].
  - rewrite length_take. lia.
  - apply prefix_take.
  - intros Heq%(f_equal length). rewrite length_take in Heq. lia.
Qed.

Lemma long_filename_cut_witness :
  ∃ payload title,
    (run sample_world 0
       (get_file_properties (λ s, s) false sample_file (kind_name KDocument)
          (Some long_name))).2 = inl payload
    ∧ name_title payload = Some (VStr title)
    ∧ length title = 100.
Proof.
  destruct (long_filename_cut (λ s, s) false sample_world 0 KDocument sample_file
              long_name) as (payload & title & Hrun & Hname & Hlen & _).
  - vm_compute. lia.
  - exists payload, title. auto.
Defined.

(** X12. The file record builder never talks to Telegram or to Notion, and
    it reads the clock only to name a record whose file name is absent or
    empty, once.  With a file name that is not empty it makes no call at
    all and returns the same record in any two worlds at any two times. *)
Theorem file_record_builder_calls uc pad (w w' : world) (n n' : nat)
    (file : TelegramFile) (file_type : str) (filename : option str) :
  let t := (run w n (get_file_properties uc pad file file_type filename)).1 in
  reply_calls t = []
  ∧ get_file_calls t = []
  ∧ create_calls t = []
  ∧ clock_reads t
    = (if truthy (of_option filename) then [] else [clock w n])
  ∧ (if truthy (of_option filename)
     then run w n (get_file_properties uc pad file file_type filename)
          = run w' n' (get_file_properties uc pad file file_type filename)
     else True).
Proof.
  cbn zeta. unfold get_file_properties.
  destruct filename as [[|c name]|]; cbn; repeat split; reflexivity.
Qed.

(** The digits of a two-digit field write the field. *)
Lemma N_of_digits_zfill_2 (n : N) :
  (n < 100)%N → N_of_digits 0 (zfill 2 (str_of_N n)) = n.
Proof.
  intros Hn. apply N.eqb_eq.
  apply (all_below_spec (λ n, N_of_digits 0 (zfill 2 (str_of_N n)) =? n)%N
           (N.to_nat 100)); [vm_compute; reflexivity | lia].
Qed.

Lemma zfill_2_length (n : N) :
  (n < 100)%N → length (zfill 2 (str_of_N n)) = 2.
Proof.
  intros Hn. pose proof (zfill_two_digits n Hn) as H.
  unfold is_digits in H. apply andb_prop in H as [H _].
  by apply Nat.eqb_eq in H.
Qed.

Lemma field_split (a a' rest rest' : str) (sep : char) :
  length a = length a' →
  a ++ sep :: rest = a' ++ sep :: rest' →
  a = a' ∧ rest = rest'.
Proof.
  intros Hlen Heq. apply app_inj_1 in Heq as [-> [= ->]]; done.
Qed.

(** The year is written with digits only, at most four, and they write the
    year, on either platform: the first "-" of a timestamp ends the year. *)
Lemma year_field_digits (pad : bool) (d : datetime) :
  (year d < 10000)%N →
  forallb is_digit (year_field pad d) = true
  ∧ length (year_field pad d) ≤ 4
  ∧ N_of_digits 0 (year_field pad d) = year d.
Proof.
  intros Hy.
  pose (ok := λ s (n : N),
    forallb is_digit s && (length s <=? 4) && (N_of_digits 0 s =? n)%N).
  assert (ok (year_field pad d) (year d) = true) as H.
  { destruct pad; cbn [year_field].
    - apply (all_below_spec (λ n, ok (zfill 4 (str_of_N n)) n)
               (N.to_nat 10000)); [vm_compute; reflexivity | lia].
    - apply (all_below_spec (λ n, ok (str_of_N n) n) (N.to_nat 10000));
        [vm_compute; reflexivity | lia]. }
  unfold ok in H. apply andb_prop in H as [[H1 H2]%andb_prop H3].
  apply Nat.leb_le in H2. apply N.eqb_eq in H3. done.
Qed.

Lemma digits_split (a a' rest rest' : str) (sep : char) :
  is_digit sep = false →
  forallb is_digit a = true →
  forallb is_digit a' = true →
  a ++ sep :: rest = a' ++ sep :: rest' →
  a = a' ∧ rest = rest'.
Proof.
  intros Hsep. revert a'.
  induction a as [|c a IH]; intros [|c' a'] Ha Ha' Heq; cbn in *.
  - by injection Heq as ->.
  - injection Heq as <- _. apply andb_prop in Ha' as [Hc _]. congruence.
  - injection Heq as -> _. apply andb_prop in Ha as [Hc _]. congruence.
  - injection Heq as -> Heq.
    apply andb_prop in Ha as [_ Ha]. apply andb_prop in Ha' as [_ Ha'].
    destruct (IH a' Ha Ha' Heq) as [-> ->]. done.
Qed.

Lemma strftime_length_le (pad : bool) (d : datetime) :
  valid_datetime d = true →
  length (strftime pad d (lit "%Y-%m-%d_%H-%M-%S")) ≤ 19.
Proof.
  intros (Hy & Hm & Hd & HH & HM & HS)%valid_datetime_bounds.
  rewrite strftime_fields.
  destruct (year_field_digits pad d Hy) as (_ & Hlen & _).
  repeat (rewrite ?length_app; cbn [length]).
  rewrite !zfill_2_length by done. lia.
Qed.

Lemma strftime_injective (pad : bool) (d1 d2 : datetime) :
  valid_datetime d1 = true →
  valid_datetime d2 = true →
  strftime pad d1 (lit "%Y-%m-%d_%H-%M-%S")
  = strftime pad d2 (lit "%Y-%m-%d_%H-%M-%S") →
  d1 = d2.
Proof.
  intros (Hy1 & Hm1 & Hd1 & HH1 & HM1 & HS1)%valid_datetime_bounds
         (Hy2 & Hm2 & Hd2 & HH2 & HM2 & HS2)%valid_datetime_bounds Heq.
  rewrite !strftime_fields in Heq.
  destruct (year_field_digits pad d1 Hy1) as (Hdig1 & _ & Hval1).
  destruct (year_field_digits pad d2 Hy2) as (Hdig2 & _ & Hval2).
  apply digits_split in Heq as [Ey Heq]; [|reflexivity|done..].
  apply field_split in Heq as [Em Heq]; [|by rewrite !zfill_2_length].
  apply field_split in Heq as [Ed Heq]; [|by rewrite !zfill_2_length].
  apply field_split in Heq as [EH Heq]; [|by rewrite !zfill_2_length].
  apply field_split in Heq as [EM ES]; [|by rewrite !zfill_2_length].
  rewrite !app_nil_r in ES.
  apply (f_equal (N_of_digits 0)) in Ey, Em, Ed, EH, EM, ES.
  rewrite Hval1, Hval2 in Ey.
  rewrite !N_of_digits_zfill_2 in Em, Ed, EH, EM, ES by done.
  destruct d1, d2; cbn in *; by subst.
Qed.

(** X13. The timestamp in the title of an unnamed file record tells its
    time to the second: built under valid clocks, two such records of one
    kind are the same record exactly when the two clocks agree.  Two
    photos received within one second get the same title. *)
Theorem unnamed_records_differ_by_second uc pad (w1 w2 : world) (n1 n2 : nat)
    (k : file_kind) (file : TelegramFile) :
  valid_datetime (clock w1 n1) = true →
  valid_datetime (clock w2 n2) = true →
  (run w1 n1 (get_file_properties uc pad file (kind_name k) None)).2
  = (run w2 n2 (get_file_properties uc pad file (kind_name k) None)).2
  ↔ clock w1 n1 = clock w2 n2.
Proof.
  intros Hv1 Hv2. split.
  - intros Heq.
    destruct (run_get_file_properties_kind uc pad w1 n1 k file None)
      as (p1 & Hrun1 & Hname1 & _).
    destruct (run_get_file_properties_kind uc pad w2 n2 k file None)
      as (p2 & Hrun2 & Hname2 & _).
    rewrite Hrun1, Hrun2 in Heq.
    assert (p1 = p2) as -> by congruence.
    assert (∀ a b : str, Some (VStr a) = Some (VStr b) → a = b) as Hinj
      by (by intros a b [= ->]).
    rewrite Hname1 in Hname2. apply Hinj in Hname2 as Htitle.
    cbn [file_record_name] in Htitle.
    pose proof (strftime_length_le pad _ Hv1) as Hlen1.
    pose proof (strftime_length_le pad _ Hv2) as Hlen2.
    assert (length (kind_name k ++ lit ": ") ≤ 10) as Hkind
      by (destruct k; vm_compute; lia).
    rewrite !(app_assoc (kind_name k)) in Htitle.
    rewrite !take_ge in Htitle by (rewrite length_app; lia).
    apply app_inv_head in Htitle. by apply (strftime_injective pad).
  - cbn. by intros ->.
Qed.

Lemma unnamed_records_differ_by_second_witness :
  (run sample_world 0
     (get_file_properties (λ s, s) false sample_file (kind_name KImage) None)).2
  = (run too_big_world 3
       (get_file_properties (λ s, s) false sample_file (kind_name KImage) None)).2.
Proof.
  apply (unnamed_records_differ_by_second (λ s, s) false sample_world too_big_world
           0 3 KImage sample_file); reflexivity.
Defined.

(** X14. The Name of a text record is the whole text exactly when the text
    has at most 30 characters; a longer text keeps its first 30 characters
    as Name and is whole only in Contenu. *)
Theorem text_title_whole_iff (s : str) :
  name_title (get_text_properties s) = contenu_rich_text (get_text_properties s)
  ↔ length s ≤ 30.
Proof.
  change (Some (VStr (take 30 s)) = Some (VStr s) ↔ length s ≤ 30).
  split.
  - intros [= Heq]. apply (f_equal length) in Heq.
    rewrite length_take in Heq. lia.
  - intros Hlen. by rewrite take_ge.
Qed.

(** X15. The forwarder writes one log line for a call that returns or
    raises an [Exception]: the success line; for an API error a line with
    its code and body, written by the first clause only; for another
    [Exception] a line with its message.  An exception outside [Exception]
    is not logged. *)
Theorem save_to_notion_log db w n (page_properties : value) :
  logged (run w n (save_to_notion db page_properties)).1
  = match notion_pages_create w n (py_dict [ (lit "database_id", db) ])
            page_properties with
    | inl _ => [ (INFO, lit "Page créée avec succès dans Notion.") ]
    | inr (APIResponseError code body _) =>
        [ (ERROR, lit "Erreur API Notion: " ++ code ++ lit " - " ++ body) ]
    | inr (OtherException _ msg) =>
        [ (ERROR,
           lit "Erreur inattendue lors de la sauvegarde dans Notion: " ++ msg) ]
    | inr (NonException _ _) => []
    end.
Proof.
  unfold save_to_notion. cbn.
  destruct (notion_pages_create w n _ page_properties)
    as [[]|[code body msg|cls msg|cls msg]]; reflexivity.
Qed.

(** * Further properties of the start-up *)

(** X16. [main] runs only after the check and the client: when the script
    reaches [main], the three settings are the values of the three
    variables of the environment, none of them empty, and the Notion
    client was built from the API key. *)
Theorem main_runs_with_settings (environ : gmap str str)
    (Client : value → unit + exn) (T K D : value) :
  script environ Client = Main T K D →
  ∃ t k d : str,
    environ !! lit "TELEGRAM_BOT_TOKEN" = Some t
    ∧ environ !! lit "NOTION_API_KEY" = Some k
    ∧ environ !! lit "NOTION_DATABASE_ID" = Some d
    ∧ t ≠ [] ∧ k ≠ [] ∧ d ≠ []
    ∧ T = VStr t ∧ K = VStr k ∧ D = VStr d
    ∧ Client (VStr k) = inl tt.
Proof.
  unfold script, config_check, py_all, getenv.
  destruct (environ !! lit "TELEGRAM_BOT_TOKEN") as [[|? ?]|];
    destruct (environ !! lit "NOTION_API_KEY") as [[|? ?]|];
    destruct (environ !! lit "NOTION_DATABASE_ID") as [[|? ?]|];
    cbn; try discriminate.
  destruct (Client _) as [[]|e] eqn:HClient;
    [|destruct (is_Exception e); discriminate].
  intros [= <- <- <-]. do 3 eexists. repeat split; done.
Qed.

Lemma main_runs_with_settings_witness :
  ∃ t k d : str,
    sample_environ !! lit "TELEGRAM_BOT_TOKEN" = Some t
    ∧ sample_environ !! lit "NOTION_API_KEY" = Some k
    ∧ sample_environ !! lit "NOTION_DATABASE_ID" = Some d
    ∧ t ≠ [] ∧ k ≠ [] ∧ d ≠ [].
Proof.
  destruct (main_runs_with_settings sample_environ (λ _, inl tt)
              (VStr (lit "123:abc")) (VStr (lit "secret_abc"))
              (VStr (lit "0123456789abcdef")))
    as (t & k & d & Ht & Hk & Hd & ? & ? & ? & _).
  - vm_compute. reflexivity.
  - exists t, k, d. auto 10.
Defined.

(** X17. When the three settings are set and the Notion client cannot be
    built, the script does not reach [main]: on an [Exception] it exits
    after logging, on any other exception it dies of it; the event loop
    starts exactly when the client is built. *)
Theorem client_failure_stops (environ : gmap str str)
    (Client : value → unit + exn) :
  Forall (λ k, is_set environ k = true) secrets →
  script environ Client
  = match Client (getenv environ (lit "NOTION_API_KEY")) with
    | inl _ =>
        Main (getenv environ (lit "TELEGRAM_BOT_TOKEN"))
             (getenv environ (lit "NOTION_API_KEY"))
             (getenv environ (lit "NOTION_DATABASE_ID"))
    | inr e => if is_Exception e then Exited else Fatal e
    end
  ∧ event_loop_started (script environ Client)
    = match Client (getenv environ (lit "NOTION_API_KEY")) with
      | inl _ => true
      | inr _ => false
      end.
Proof.
  unfold script, config_check, py_all, getenv, secrets, is_set.
  rewrite !Forall_cons.
  destruct (environ !! lit "TELEGRAM_BOT_TOKEN") as [[|? ?]|];
    destruct (environ !! lit "NOTION_API_KEY") as [[|? ?]|];
    destruct (environ !! lit "NOTION_DATABASE_ID") as [[|? ?]|];
    cbn; intros (H1 & H2 & H3 & _); try discriminate.
  destruct (Client _) as [[]|e]; [done|].
  by destruct (is_Exception e).
Qed.

Lemma client_failure_stops_witness :
  script sample_environ (λ _, inr network_error) = Exited.
Proof.
  destruct (client_failure_stops sample_environ (λ _, inr network_error))
    as (H & _); [repeat constructor|].
  exact H.
Defined.
